(** * slack-summary-bot: a shallow embedding of [main.py]

    The program reads project rows from a sheet, fetches the previous day's
    Slack messages per project, summarises them with a generative model and
    stores the summary as a Google document.

    Python values are modelled as follows.
    - [str] is a list of Unicode code points, so that slicing and [len]
      count characters as Python does.
    - A [dict] with string keys is a [gmap str _].
    - Every external service is a field of [services], a function of an
      abstract world state; each call is recorded in a trace of [event]s.
    - A Python exception is a [Raise] outcome threaded by the monad [M]. *)

From Stdlib Require Import ZArith NArith List String Ascii Decimal Lia Sorted.
From stdpp Require Import base gmap list sorting.

(** ** Python strings *)

Module PyStr.

Definition char := N.
Definition str := list char.

(** Decoding of a UTF-8 literal into code points: [need] continuation
    bytes are still expected and [acc] holds the bits read so far. *)
Fixpoint utf8_go (bs : list N) (need : nat) (acc : N) : str :=
  match bs with
  | [] => []
  | b :: bs' =>
      match need with
      | O =>
          if (b <? 128)%N then b :: utf8_go bs' 0 0%N
          else if (b <? 224)%N then utf8_go bs' 1 (b - 192)%N
          else if (b <? 240)%N then utf8_go bs' 2 (b - 224)%N
          else utf8_go bs' 3 (b - 240)%N
      | S n =>
          let acc' := (acc * 64 + (b - 128))%N in
          match n with
          | O => acc' :: utf8_go bs' 0 0%N
          | S _ => utf8_go bs' n acc'
          end
      end
  end.

Definition u (s : string) : str :=
  utf8_go (map N_of_ascii (list_ascii_of_string s)) 0 0%N.

(** [sep.join(items)] *)
Fixpoint join (sep : str) (items : list str) : str :=
  match items with
  | [] => []
  | x :: rest =>
      match rest with
      | [] => x
      | _ :: _ => x ++ sep ++ join sep rest
      end
  end.

(** [s[start:stop]] with step 1, following the index clamping of
    [slice.indices]: a negative bound counts from the end. *)
Definition clamp_index (len : Z) (i : Z) : Z :=
  if (i <? 0)%Z then Z.max 0 (i + len) else Z.min i len.

Definition slice {A} (s : list A) (start stop : option Z) : list A :=
  let len := Z.of_nat (length s) in
  let lo := match start with None => 0%Z | Some i => clamp_index len i end in
  let hi := match stop with None => len | Some i => clamp_index len i end in
  firstn (Z.to_nat (hi - lo)) (skipn (Z.to_nat lo) s).

(** [s[::-1]] *)
Definition reversed {A} (s : list A) : list A := rev s.

Fixpoint uint_digits (d : Decimal.uint) : str :=
  match d with
  | Nil => []
  | D0 d' => 48%N :: uint_digits d'
  | D1 d' => 49%N :: uint_digits d'
  | D2 d' => 50%N :: uint_digits d'
  | D3 d' => 51%N :: uint_digits d'
  | D4 d' => 52%N :: uint_digits d'
  | D5 d' => 53%N :: uint_digits d'
  | D6 d' => 54%N :: uint_digits d'
  | D7 d' => 55%N :: uint_digits d'
  | D8 d' => 56%N :: uint_digits d'
  | D9 d' => 57%N :: uint_digits d'
  end.

(** [str(n)] for an [int]. *)
Definition str_of_Z (z : Z) : str :=
  match Z.to_int z with
  | Decimal.Pos d => uint_digits d
  | Decimal.Neg d => 45%N :: uint_digits d
  end.

Definition str_of_nat (n : nat) : str := str_of_Z (Z.of_nat n).

(** [s.zfill(width)] for a string of digits. *)
Definition zfill (width : nat) (s : str) : str :=
  repeat 48%N (width - length s) ++ s.

(** Truthiness of an optional string: [None] and [''] are falsy. *)
Definition truthy (t : option str) : bool :=
  match t with
  | Some (_ :: _) => true
  | _ => false
  end.

End PyStr.
Export PyStr.

(** ** The part of [datetime] the program uses *)

Module PyDatetime.

Local Open Scope Z_scope.

Record datetime := mk_datetime {
  year : Z; month : Z; day : Z;
  hour : Z; minute : Z; second : Z; microsecond : Z }.

Definition is_leap (y : Z) : bool :=
  (y mod 4 =? 0) && (negb (y mod 100 =? 0) || (y mod 400 =? 0)).

Definition days_in_month (y m : Z) : Z :=
  if m =? 2 then (if is_leap y then 29 else 28)
  else if (m =? 4) || (m =? 6) || (m =? 9) || (m =? 11) then 30
  else 31.

Definition days_before_year (y : Z) : Z :=
  let p := y - 1 in p * 365 + p / 4 - p / 100 + p / 400.

(** Days of year [y] before the first of month [m]. *)
Definition days_before_month (y m : Z) : Z :=
  fold_left (fun acc k => acc + days_in_month y (Z.of_nat k))
            (seq 1 (Z.to_nat (m - 1))) 0.

Definition ymd2ord (y m d : Z) : Z :=
  days_before_year y + days_before_month y m + d.

Definition DI400Y : Z := 146097.
Definition DI100Y : Z := 36524.
Definition DI4Y : Z := 1461.

(** Inverse of [ymd2ord], after [_ord2ymd] of the standard library; the
    month tables used here already account for leap years. *)
Definition ord2ymd (ordinal : Z) : Z * Z * Z :=
  let n := ordinal - 1 in
  let n400 := n / DI400Y in
  let n := n mod DI400Y in
  let y := n400 * 400 + 1 in
  let n100 := n / DI100Y in
  let n := n mod DI100Y in
  let n4 := n / DI4Y in
  let n := n mod DI4Y in
  let n1 := n / 365 in
  let n := n mod 365 in
  let y := y + n100 * 100 + n4 * 4 + n1 in
  if (n1 =? 4) || (n100 =? 4) then (y - 1, 12, 31)
  else
    let m := Z.shiftr (n + 50) 5 in
    let preceding := days_before_month y m in
    let '(m, preceding) :=
      if n <? preceding
      then (m - 1, preceding - days_in_month y (m - 1))
      else (m, preceding) in
    (y, m, n - preceding + 1).

Definition toordinal (d : datetime) : Z := ymd2ord (year d) (month d) (day d).

(** [d - timedelta(days=n)]: the time of day is kept; [None] stands for
    the [OverflowError] raised when the date leaves year 1..9999. *)
Definition MAXORDINAL : Z := 3652059.

Definition minus_days (d : datetime) (n : Z) : option datetime :=
  let o := toordinal d - n in
  if (0 <? o) && (o <=? MAXORDINAL) then
    let '(y, m, dd) := ord2ymd o in
    Some (mk_datetime y m dd (hour d) (minute d) (second d) (microsecond d))
  else None.

(** [d.replace(hour=h, minute=mi, second=s)]: only the three named
    fields change. *)
Definition replace_hms (d : datetime) (h mi s : Z) : datetime :=
  mk_datetime (year d) (month d) (day d) h mi s (microsecond d).

(** [d.strftime('%Y-%m-%d')] for a four-digit year. *)
Definition strftime_Ymd (d : datetime) : str :=
  zfill 4 (str_of_Z (year d)) ++ u "-" ++
  zfill 2 (str_of_Z (month d)) ++ u "-" ++
  zfill 2 (str_of_Z (day d)).

(** [d.timestamp()] of a naive datetime read as local time, whose offset
    from UTC is [utcoffset d] seconds.  Python returns a float number of
    seconds; the model keeps the exact number of microseconds. *)
Definition EPOCH_ORDINAL : Z := 719163.

Definition timestamp (utcoffset : datetime -> Z) (d : datetime) : Z :=
  ((toordinal d - EPOCH_ORDINAL) * 86400
   + hour d * 3600 + minute d * 60 + second d - utcoffset d) * 1000000
  + microsecond d.

End PyDatetime.
Export PyDatetime.

(** ** Values, exceptions and service calls *)

(** A sheet cell as [get_all_records] yields it: text, or an integer for a
    numeric cell. *)
Inductive cell :=
| CStr (s : str)
| CInt (n : Z).

#[global] Instance cell_eq_dec : EqDecision cell.
Proof. solve_decision. Defined.

(** [f"{c}"] *)
Definition format_cell (c : cell) : str :=
  match c with
  | CStr s => s
  | CInt n => str_of_Z n
  end.

(** A sheet row: header text to cell. *)
Abbreviation row := (gmap str cell).

(** A Slack message record; the program reads the keys [user] and [text]. *)
Abbreviation message := (gmap str str).

Inductive exn_kind := KeyError | TypeError | OverflowError | ServiceError.

(** An exception with the text [str(e)] gives. *)
Record exn := mk_exn { exn_kind_of : exn_kind; exn_str : str }.

Inductive outcome (A : Type) :=
| Ret (a : A)
| Raise (e : exn).
Arguments Ret {A} a.
Arguments Raise {A} e.

(** What the program does to the outside world, in order.  The bounds of a
    history request are epoch times in microseconds. *)
Inductive event :=
| Print (line : str)
| SheetGetAllRecords
| ConversationsHistory (channel : cell) (oldest latest : Z)
| GenerateContent (prompt : str)
| DocumentsCreate (title : str)
| DocumentsBatchUpdate (document_id : str) (text : str)
| FilesGet (file_id : str)
| FilesUpdate (file_id add_parents remove_parents : str).

#[global] Instance event_eq_dec : EqDecision event.
Proof. solve_decision. Defined.

(** The calls of the DocumentPublisher. *)
Definition is_publisher_op (e : event) : bool :=
  match e with
  | DocumentsCreate _ | DocumentsBatchUpdate _ _ | FilesGet _ | FilesUpdate _ _ _ => true
  | _ => false
  end.

Definition is_create (e : event) : bool :=
  match e with DocumentsCreate _ => true | _ => false end.

Definition is_generate (e : event) : bool :=
  match e with GenerateContent _ => true | _ => false end.

(** The external services over a world state [W]: the clock, the local time
    zone, the sheet, Slack, the model, Docs and Drive.  A call returns a value
    or raises, and moves the world on. *)
Record services (W : Type) := mk_services {
  now : W -> datetime * W;
  utcoffset : datetime -> Z;
  DRIVE_FOLDER_ID : str;
  get_all_records : W -> outcome (list row) * W;
  conversations_history : cell -> Z -> Z -> W -> outcome (list message) * W;
  generate_content : str -> W -> outcome str * W;
  documents_create : str -> W -> outcome str * W;
  documents_batchUpdate : str -> str -> W -> outcome unit * W;
  files_get : str -> W -> outcome (option (list str)) * W;
  files_update : str -> str -> str -> W -> outcome unit * W }.
Arguments now {W}.
Arguments utcoffset {W}.
Arguments DRIVE_FOLDER_ID {W}.
Arguments get_all_records {W}.
Arguments conversations_history {W}.
Arguments generate_content {W}.
Arguments documents_create {W}.
Arguments documents_batchUpdate {W}.
Arguments files_get {W}.
Arguments files_update {W}.

(** ** The monad of the program: world state, trace, exceptions *)

Definition M (W A : Type) : Type := W -> outcome A * W * list event.

Definition ret {W A} (a : A) : M W A := fun w => (Ret a, w, []).

Definition raise {W A} (e : exn) : M W A := fun w => (Raise e, w, []).

Definition bind {W A B} (m : M W A) (f : A -> M W B) : M W B :=
  fun w =>
    match m w with
    | (Ret a, w1, t1) =>
        match f a w1 with
        | (r, w2, t2) => (r, w2, t1 ++ t2)
        end
    | (Raise e, w1, t1) => (Raise e, w1, t1)
    end.

Notation "x <- m ;; k" := (bind m (fun x => k))
  (at level 100, m at next level, right associativity).
Notation "m ;;; k" := (bind m (fun _ => k))
  (at level 100, right associativity).

(** [try: body except Exception as e: handler(e)] *)
Definition try_except {W A} (body : M W A) (handler : exn -> M W A) : M W A :=
  fun w =>
    match body w with
    | (Ret a, w1, t1) => (Ret a, w1, t1)
    | (Raise e, w1, t1) =>
        match handler e w1 with
        | (r, w2, t2) => (r, w2, t1 ++ t2)
        end
    end.

(** A service call: the event is recorded, then the service answers. *)
Definition call {W A} (ev : event) (f : W -> outcome A * W) : M W A :=
  fun w => match f w with (r, w1) => (r, w1, [ev]) end.

Definition print {W} (line : str) : M W unit :=
  fun w => (Ret tt, w, [Print line]).

(** [for x in xs: body(x)] *)
Fixpoint for_each {W A} (xs : list A) (body : A -> M W unit) : M W unit :=
  match xs with
  | [] => ret tt
  | x :: rest => body x ;;; for_each rest body
  end.

(** [d[key]] *)
Definition getitem {W V : Type} (d : gmap str V) (key : str) : M W V :=
  match d !! key with
  | Some v => ret v
  | None => raise (mk_exn KeyError (u "'" ++ key ++ u "'"))
  end.

Definition result_of {W A} (r : outcome A * W * list event) : outcome A := r.1.1.
Definition world_of {W A} (r : outcome A * W * list event) : W := r.1.2.
Definition trace_of {W A} (r : outcome A * W * list event) : list event := r.2.

(** ** The program *)

Definition nl : str := [10%N].

Definition PLACEHOLDER : str := u "昨日のメッセージはありませんでした。".

Definition PROMPT_HEAD : str :=
    nl ++
    u "    あなたは優秀なプロジェクトマネージャーです。" ++
    nl ++
    u "    以下のSlackログ（プロジェクト: ".

Definition PROMPT_MIDDLE : str :=
    u "）から、昨日の動きを把握できる議事録サマリを作成してください。" ++
    nl ++
    u "    " ++
    nl ++
    u "    【要件】" ++
    nl ++
    u "    1. 「決定事項」と「その経緯（誰がなぜそうしたか）」を明確に。" ++
    nl ++
    u "    2. ネクストアクションや課題があれば記載。" ++
    nl ++
    u "    3. 雑談は除外。" ++
    nl ++
    u "    4. Googleドキュメント用のため、Markdownは使わず、見出しは【見出し】のように隅付き括弧で表現。" ++
    nl ++
    u "    " ++
    nl ++
    u "    【ログ】" ++
    nl ++
    u "    ".

Definition PROMPT_TAIL : str :=
    nl ++
    u "    ".

(** [m.get('user', 'Unknown')] and [m.get('text', '')] *)
Definition user_of (m : message) : str := default (u "Unknown") (m !! u "user").

Definition text_of (m : message) : str := default [] (m !! u "text").

Section Program.

Context {W : Type} (sv : services W).

(** [row.get('Status') == 'Active'] *)
Definition is_active (r : row) : bool :=
  bool_decide (r !! u "Status" = Some (CStr (u "Active"))).

Definition get_configs : M W (list row) :=
  print (u "Reading config from Google Sheet...") ;;;
  rows <- call SheetGetAllRecords (get_all_records sv) ;;
  ret (fold_left (fun acc r => if is_active r then acc ++ [r] else acc)
                 rows []).

(** The body of the loop over [messages[::-1]], one [append] at most. *)
Definition append_line (text_data : list str) (m : message) : list str :=
  let user := user_of m in
  let text := text_of m in
  match text with
  | [] => text_data
  | _ :: _ => text_data ++ [u "User(" ++ user ++ u "): " ++ text]
  end.

(** The part of [get_yesterday_messages] after the response arrived. *)
Definition transcript_of (messages : list message) : option str :=
  match messages with
  | [] => None
  | _ :: _ =>
      Some (join nl (fold_left append_line (reversed messages) []))
  end.

(** [yesterday.replace(hour=0, minute=0, second=0).timestamp()] and
    [yesterday.replace(hour=23, minute=59, second=59).timestamp()] *)
Definition window_oldest (yesterday : datetime) : Z :=
  timestamp (utcoffset sv) (replace_hms yesterday 0 0 0).

Definition window_latest (yesterday : datetime) : Z :=
  timestamp (utcoffset sv) (replace_hms yesterday 23 59 59).

Definition get_yesterday_messages (channel_id : cell) : M W (option str) :=
  today <- (fun w => match now sv w with (d, w1) => (Ret d, w1, []) end) ;;
  match minus_days today 1 with
  | None => raise (mk_exn OverflowError (u "date value out of range"))
  | Some yesterday =>
      let oldest := window_oldest yesterday in
      let latest := window_latest yesterday in
      try_except
        (messages <- call (ConversationsHistory channel_id oldest latest)
                          (conversations_history sv channel_id oldest latest) ;;
         ret (transcript_of messages))
        (fun e =>
           print (u "Error fetching Slack: " ++ exn_str e) ;;;
           ret None)
  end.

Definition build_prompt (text : str) (project_name : cell) : str :=
  PROMPT_HEAD ++ format_cell project_name ++ PROMPT_MIDDLE ++
  slice text None (Some 20000%Z) ++ PROMPT_TAIL.

Definition summarize_text (text : option str) (project_name : cell) : M W str :=
  match text with
  | None | Some [] => ret PLACEHOLDER
  | Some (c :: cs) =>
      let prompt := build_prompt (c :: cs) project_name in
      call (GenerateContent prompt) (generate_content sv prompt)
  end.

Definition doc_title (yesterday : datetime) (project_name : cell) : str :=
  strftime_Ymd yesterday ++ u "_" ++ format_cell project_name ++ u "_日報".

Definition create_google_doc (project_name : cell) (summary : str) : M W unit :=
  today <- (fun w => match now sv w with (d, w1) => (Ret d, w1, []) end) ;;
  match minus_days today 1 with
  | None => raise (mk_exn OverflowError (u "date value out of range"))
  | Some yesterday =>
      let title := doc_title yesterday project_name in
      doc_id <- call (DocumentsCreate title) (documents_create sv title) ;;
      print (u "Created Doc: " ++ title) ;;;
      call (DocumentsBatchUpdate doc_id summary)
           (documents_batchUpdate sv doc_id summary) ;;;
      parents <- call (FilesGet doc_id) (files_get sv doc_id) ;;
      match parents with
      | None => raise (mk_exn TypeError (u "can only join an iterable"))
      | Some ps =>
          let previous_parents := join (u ",") ps in
          call (FilesUpdate doc_id (DRIVE_FOLDER_ID sv) previous_parents)
               (files_update sv doc_id (DRIVE_FOLDER_ID sv) previous_parents) ;;;
          print (u "Moved to folder.")
      end
  end.

(** One iteration of the loop of [main]. *)
Definition process_config (config : row) : M W unit :=
  project_name <- getitem config (u "プロジェクト名") ;;
  channel_id <- getitem config (u "SlackチャンネルID") ;;
  print (u "--- Processing: " ++ format_cell project_name ++ u " ---") ;;;
  text <- get_yesterday_messages channel_id ;;
  if truthy text then
    print (u "Summarizing with Gemini...") ;;;
    summary <- summarize_text text project_name ;;
    create_google_doc project_name summary
  else
    print (u "No messages.").

Definition main : M W unit :=
  configs <- get_configs ;;
  print (u "Found " ++ str_of_nat (length configs) ++ u " active projects.") ;;;
  for_each configs process_config.

End Program.

(** ** A concrete world for examples

    The world state counts the service calls made so far.  The clock is
    fixed, the time zone is UTC, and the sheet, Slack and the model answer
    from the given tables; Docs and Drive always succeed. *)

Definition demo_services (clock : datetime) (rows : list row)
    (history : cell -> outcome (list message))
    (reply : str -> outcome str) : services nat :=
  {| now := fun w => (clock, w);
     utcoffset := fun _ => 0%Z;
     DRIVE_FOLDER_ID := u "folder";
     get_all_records := fun w => (Ret rows, S w);
     conversations_history := fun ch _ _ w => (history ch, S w);
     generate_content := fun p w => (reply p, S w);
     documents_create := fun _ w => (Ret (u "doc" ++ str_of_nat w), S w);
     documents_batchUpdate := fun _ _ w => (Ret tt, S w);
     files_get := fun _ w => (Ret (Some [u "root"]), S w);
     files_update := fun _ _ _ w => (Ret tt, S w) |}.

Definition demo_clock : datetime :=
  mk_datetime 2024 5 2 10 30 15 250000.

(** The day before [demo_clock], at the same time of day. *)
Definition demo_yesterday : datetime :=
  mk_datetime 2024 5 1 10 30 15 250000.

Definition demo_row (name channel status : string) : row :=
  <[u "プロジェクト名" := CStr (u name)]>
    (<[u "SlackチャンネルID" := CStr (u channel)]>
       (<[u "Status" := CStr (u status)]> ∅)).

Definition demo_message (user text : string) : message :=
  <[u "user" := u user]> (<[u "text" := u text]> ∅).

(** Slack answers newest first. *)
Definition demo_history (ch : cell) : outcome (list message) :=
  if bool_decide (ch = CStr (u "C1")) then
    Ret [demo_message "U2" "second"; demo_message "U9" ""; demo_message "U1" "first"]
  else if bool_decide (ch = CStr (u "C2")) then Ret []
  else if bool_decide (ch = CStr (u "C3")) then
    Ret [demo_message "U3" ""; <[u "user" := u "U4"]> ∅]
  else Raise (mk_exn ServiceError (u "channel_not_found")).

Definition demo_reply_ok (prompt : str) : outcome str := Ret (u "summary").

Definition demo_reply_fail (prompt : str) : outcome str :=
  Raise (mk_exn ServiceError (u "quota exceeded")).

Definition demo_rows : list row :=
  [demo_row "Alpha" "C1" "Active"; demo_row "Beta" "C2" "Active";
   demo_row "Gamma" "C1" "Paused"; demo_row "Delta" "C4" "Active";
   demo_row "Epsilon" "C3" "Active"].

(** ** Vocabulary for the statements *)

(** The line an iteration of [main] prints first. *)
Definition processing_line (project_name : cell) : event :=
  Print (u "--- Processing: " ++ format_cell project_name ++ u " ---").

(** The clock never reads a date without a previous day (0001-01-01). *)
Definition clock_sane {W} (sv : services W) : Prop :=
  forall w : W, minus_days (now sv w).1 1 <> None.

(** An event that is no call of the publisher. *)
Definition quiet (ev : event) : Prop := is_publisher_op ev = false.

(** The invariant of the data model read literally, for one iteration: a
    document create request is made exactly when the fetched transcript is
    non-empty. *)
Definition created_iff_transcript {W} (sv : services W) (config : row)
    (channel_id : cell) (w : W) : Prop :=
  forall t w1 tf,
    get_yesterday_messages sv channel_id w = (Ret t, w1, tf) ->
    ((exists title,
         DocumentsCreate title ∈ trace_of (process_config sv config w)) <->
     truthy t = true).

(** A day at 00:00:00 and at 23:59:59, with no fraction of a second. *)
Definition midnight (d : datetime) : datetime :=
  mk_datetime (year d) (month d) (day d) 0 0 0 0.

Definition last_second (d : datetime) : datetime :=
  mk_datetime (year d) (month d) (day d) 23 59 59 0.

(** The line [main] prints after loading the configuration. *)
Definition found_line (configs : list row) : event :=
  Print (u "Found " ++ str_of_nat (length configs) ++ u " active projects.").

Definition is_history (e : event) : bool :=
  match e with ConversationsHistory _ _ _ => true | _ => false end.

(** The model, Docs and Drive answer every call without raising; nothing
    is asked of the sheet or of Slack. *)
Record reliable {W} (sv : services W) : Prop := mk_reliable {
  model_answers :
    forall prompt w, exists summary w1,
      generate_content sv prompt w = (Ret summary, w1);
  create_answers :
    forall title w, exists doc_id w1,
      documents_create sv title w = (Ret doc_id, w1);
  write_answers :
    forall doc_id text w, exists w1,
      documents_batchUpdate sv doc_id text w = (Ret tt, w1);
  get_answers :
    forall file_id w, exists parents w1,
      files_get sv file_id w = (Ret (Some parents), w1);
  move_answers :
    forall file_id added removed w, exists w1,
      files_update sv file_id added removed w = (Ret tt, w1) }.

(** What is counted in a trace: one history request per project, one
    create per call to the model, four publisher calls per create. *)
Record tally_ok (projects : nat) (tr : list event) : Prop := mk_tally {
  tally_history : length (List.filter is_history tr) = projects;
  tally_create :
    length (List.filter is_create tr) = length (List.filter is_generate tr);
  tally_publisher :
    length (List.filter is_publisher_op tr)
    = 4 * length (List.filter is_create tr) }.

(** The date format YYYY-MM-DD written out digit by digit: four digits of
    the year, two of the month, two of the day, with hyphens between. *)
Definition digit (k : Z) : char := Z.to_N (48 + k).

Definition iso_date (y m d : Z) : str :=
  [digit (y / 1000); digit (y / 100 mod 10); digit (y / 10 mod 10);
   digit (y mod 10); 45%N;
   digit (m / 10); digit (m mod 10); 45%N;
   digit (d / 10); digit (d mod 10)].




(** The time a record was posted, from its [ts] entry read as a whole
    number of seconds. *)
Definition ts_of (m : message) : Z :=
  fold_left (fun acc c => (acc * 10 + (Z.of_N c - 48))%Z)
            (default [] (m !! u "ts")) 0%Z.

(** A day number whose date is a valid one and maps back to it. *)
Definition day_ok (o : Z) : bool :=
  let '(y, m, d) := ord2ymd o in
  (1 <=? m)%Z && (m <=? 12)%Z && (1 <=? d)%Z && (d <=? days_in_month y m)%Z
  && (ymd2ord y m d =? o)%Z.

(** [day_ok] on [count] consecutive day numbers from [start]. *)
Fixpoint days_ok (start : Z) (count : nat) (acc : bool) : bool :=
  match count with
  | O => acc
  | S n => days_ok (start + 1) n (acc && day_ok start)
  end.

(** 1970-01-01 to 2099-12-31 as day numbers: [EPOCH_ORDINAL] and the
    [DAYS_CHECKED] days from it. *)
Definition DAYS_CHECKED : Z := 47482.

(** A row that has the two columns [main] indexes. *)
Definition has_columns (r : row) : Prop :=
  is_Some (r !! u "プロジェクト名") /\ is_Some (r !! u "SlackチャンネルID").

(** ** The transcript in the words of the specification

    The records oldest first, those with a non-empty text only, each as
    [User(<id>): <text>], joined by newlines; absent for no record. *)

Definition has_text (m : message) : bool :=
  match text_of m with
  | [] => false
  | _ :: _ => true
  end.

Definition transcript_line (m : message) : str :=
  u "User(" ++ user_of m ++ u "): " ++ text_of m.

Definition kept_records (messages : list message) : list message :=
  List.filter has_text (rev messages).

Definition spec_transcript (messages : list message) : option str :=
  match messages with
  | [] => None
  | _ :: _ => Some (join nl (map transcript_line (kept_records messages)))
  end.

(** The order of a response: Slack lists the newest message first. *)
Definition newest_first (posted_at : message -> Z) (ms : list message) : Prop :=
  StronglySorted (fun a b => (posted_at b <= posted_at a)%Z) ms.

Definition oldest_first (posted_at : message -> Z) (ms : list message) : Prop :=
  StronglySorted (fun a b => (posted_at a <= posted_at b)%Z) ms.

(** The ordering of the transcript read literally: for every response and
    every way to time its records, the records of the transcript are
    oldest first. *)
Definition transcript_always_oldest_first : Prop :=
  forall (posted_at : message -> Z) (messages : list message),
    messages <> [] -> oldest_first posted_at (kept_records messages).

Definition demo_ok : services nat :=
  demo_services demo_clock demo_rows demo_history demo_reply_ok.

(** The model is out of quota; the second project has messages. *)
Definition demo_failing_rows : list row :=
  [demo_row "Beta" "C2" "Active"; demo_row "Alpha" "C1" "Active";
   demo_row "Delta" "C4" "Active"].

Definition demo_failing : services nat :=
  demo_services demo_clock demo_failing_rows demo_history demo_reply_fail.

Definition alpha : row := demo_row "Alpha" "C1" "Active".

Definition alpha_transcript : str :=
  u "User(U1): first" ++ nl ++ u "User(U2): second".

(** The example world with Drive answering as given: what the read of the
    parents returns and how the move ends. *)
Definition demo_drive (rows : list row)
    (parents : outcome (option (list str))) (move : outcome unit)
    : services nat :=
  {| now := now demo_ok;
     utcoffset := utcoffset demo_ok;
     DRIVE_FOLDER_ID := DRIVE_FOLDER_ID demo_ok;
     get_all_records := fun w => (Ret rows, S w);
     conversations_history := conversations_history demo_ok;
     generate_content := generate_content demo_ok;
     documents_create := documents_create demo_ok;
     documents_batchUpdate := documents_batchUpdate demo_ok;
     files_get := fun _ w => (parents, S w);
     files_update := fun _ _ _ w => (move, S w) |}.

(** The example world with the sheet out of reach. *)
Definition demo_sheet_down : services nat :=
  {| now := now demo_ok;
     utcoffset := utcoffset demo_ok;
     DRIVE_FOLDER_ID := DRIVE_FOLDER_ID demo_ok;
     get_all_records :=
       fun w => (Raise (mk_exn ServiceError (u "sheet not found")), S w);
     conversations_history := conversations_history demo_ok;
     generate_content := generate_content demo_ok;
     documents_create := documents_create demo_ok;
     documents_batchUpdate := documents_batchUpdate demo_ok;
     files_get := files_get demo_ok;
     files_update := files_update demo_ok |}.

(** An active row without the channel column. *)
Definition demo_row_no_channel : row :=
  <[u "プロジェクト名" := CStr (u "Broken")]>
    (<[u "Status" := CStr (u "Active")]> ∅).

Definition demo_broken_rows : list row :=
  [demo_row "Beta" "C2" "Active"; demo_row_no_channel;
   demo_row "Alpha" "C1" "Active"].

(** A day's log too long for the prompt: one old record of 20000
    characters, then two newer ones. *)
Definition demo_long_older : list message :=
  [<[u "user" := u "U1"]>
     (<[u "text" := repeat 97%N (Z.to_nat 20000)]> ∅)].

Definition demo_long_newer : list message :=
  [demo_message "U3" "newest"; demo_message "U2" "newer"].

Definition demo_long_transcript : str :=
  u "User(" ++ u "U1" ++ u "): " ++ repeat 97%N (Z.to_nat 20000).

Definition forbidden : exn := mk_exn ServiceError (u "forbidden").

(** Drive refuses the move; Drive returns a file without parents. *)
Definition demo_move_fails : services nat :=
  demo_drive demo_failing_rows (Ret (Some [u "a"; u "b"])) (Raise forbidden).

Definition demo_no_parents : services nat :=
  demo_drive demo_rows (Ret None) (Ret tt).

Definition demo_broken : services nat :=
  demo_services demo_clock demo_broken_rows demo_history demo_reply_ok.

Definition demo_paused : services nat :=
  demo_services demo_clock [demo_row "Gamma" "C1" "Paused"] demo_history
    demo_reply_ok.

(** Records with a time stamp, and a Slack that answers the channel [N]
    newest first and the channel [O] oldest first. *)
Definition demo_message_at (ts user text : string) : message :=
  <[u "ts" := u ts]> (demo_message user text).

Definition demo_newest_first : list message :=
  [demo_message_at "300" "U3" "third"; demo_message_at "200" "U2" "";
   demo_message_at "100" "U1" "first"].

Definition demo_oldest_first : list message :=
  [demo_message_at "100" "U1" "a"; demo_message_at "200" "U2" "bb"].

Definition demo_history_ts (ch : cell) : outcome (list message) :=
  if bool_decide (ch = CStr (u "N")) then Ret demo_newest_first
  else Ret demo_oldest_first.

Definition demo_ts : services nat :=
  demo_services demo_clock demo_rows demo_history_ts demo_reply_ok.

(** * Properties of the program *)

Arguments u : simpl never.
Arguments str_of_Z : simpl never.
Arguments str_of_nat : simpl never.
Arguments timestamp : simpl never.
Arguments strftime_Ymd : simpl never.
Arguments minus_days : simpl never.
Arguments slice : simpl never.

(** ** Running the monad *)

Section Running.

Context {W : Type}.

Lemma run_bind_ret {A B} (m : M W A) (f : A -> M W B) w a w1 t1 :
  m w = (Ret a, w1, t1) ->
  bind m f w = (result_of (f a w1), world_of (f a w1), t1 ++ trace_of (f a w1)).
Proof.
  intros Hm. unfold bind. rewrite Hm.
  destruct (f a w1) as [[r w2] t2]. reflexivity.
Qed.

Lemma run_bind_raise {A B} (m : M W A) (f : A -> M W B) w e w1 t1 :
  m w = (Raise e, w1, t1) -> bind m f w = (Raise e, w1, t1).
Proof. intros Hm. unfold bind. rewrite Hm. reflexivity. Qed.

Lemma run_ret_bind {A B} (a : A) (f : A -> M W B) w :
  bind (ret a) f w = f a w.
Proof. unfold bind, ret. destruct (f a w) as [[r w2] t2]. reflexivity. Qed.

Lemma run_print_then {B} line (k : M W B) w :
  bind (print line) (fun _ => k) w
  = (result_of (k w), world_of (k w), Print line :: trace_of (k w)).
Proof. unfold bind, print. destruct (k w) as [[r w2] t2]. reflexivity. Qed.

Lemma triple_eta {A} (r : outcome A * W * list event) :
  r = (result_of r, world_of r, trace_of r).
Proof. destruct r as [[? ?] ?]. reflexivity. Qed.

Lemma for_each_cons {A} (x : A) rest (body : A -> M W unit) w w1 t1 :
  body x w = (Ret tt, w1, t1) ->
  for_each (x :: rest) body w
  = (result_of (for_each rest body w1), world_of (for_each rest body w1),
     t1 ++ trace_of (for_each rest body w1)).
Proof.
  intros Hb. simpl.
  exact (run_bind_ret (body x) (fun _ => for_each rest body) w tt w1 t1 Hb).
Qed.

Lemma for_each_app {A} (done rest : list A) (body : A -> M W unit) w w1 t1 :
  for_each done body w = (Ret tt, w1, t1) ->
  for_each (done ++ rest) body w
  = (result_of (for_each rest body w1), world_of (for_each rest body w1),
     t1 ++ trace_of (for_each rest body w1)).
Proof.
  revert w t1. induction done as [|x done IH]; intros w t1 Hd.
  - simpl in Hd. inversion Hd; subst. simpl. apply triple_eta.
  - simpl in Hd. simpl. unfold bind in *.
    destruct (body x w) as [[[[]|e] wa] ta]; [|discriminate].
    destruct (for_each done body wa) as [[rd wd] td] eqn:Hrun.
    inversion Hd; subst.
    rewrite (IH wa td Hrun). simpl. rewrite app_assoc. reflexivity.
Qed.

End Running.

(** ** Slices, joins and list comprehensions *)

Lemma slice_prefix {A} (s : list A) (n : Z) :
  (0 <= n)%Z -> slice s None (Some n) = take (Z.to_nat n) s.
Proof.
  intros Hn. unfold slice, clamp_index.
  destruct (Z.ltb_spec n 0) as [Hlt|_]; [lia|].
  rewrite Z.sub_0_r. change (Z.to_nat 0) with 0%nat. rewrite drop_0.
  destruct (Z.le_ge_cases n (Z.of_nat (length s))) as [Hle|Hge].
  - rewrite Z.min_l by exact Hle. reflexivity.
  - rewrite Z.min_r by exact Hge. rewrite Nat2Z.id.
    rewrite firstn_all. symmetry. apply firstn_all2. lia.
Qed.

Lemma comprehension_filter (P : row -> bool) (rows acc : list row) :
  fold_left (fun acc r => if P r then acc ++ [r] else acc) rows acc
  = acc ++ List.filter P rows.
Proof.
  revert acc. induction rows as [|r rows IH]; intros acc; simpl.
  - symmetry. apply app_nil_r.
  - rewrite IH. destruct (P r); [|reflexivity].
    rewrite <- app_assoc. reflexivity.
Qed.

Lemma filter_is_active (rows : list row) :
  List.filter is_active rows
  = filter (fun r : row => r !! u "Status" = Some (CStr (u "Active"))) rows.
Proof.
  induction rows as [|r rows IH]; [reflexivity|].
  simpl. rewrite filter_cons. unfold is_active at 1.
  rewrite IH. case_bool_decide; case_decide; congruence.
Qed.

(** ** The date format *)








Section Claims.

Context {W : Type} (sv : services W).

(** ** ConfigSource *)

(** C5: [get_configs] returns exactly the rows whose [Status] is the text
    [Active], in sheet order and unchanged: the result is the filter of the
    rows, a subsequence of them, and holds a row exactly when the sheet
    holds it with that status. *)
Theorem get_configs_active_subsequence (w : W) (rows : list row) (w1 : W) :
  get_all_records sv w = (Ret rows, w1) ->
  let active :=
    filter (fun r : row => r !! u "Status" = Some (CStr (u "Active"))) rows in
  result_of (get_configs sv w) = Ret active /\
  sublist active rows /\
  forall r : row,
    r ∈ active <-> r ∈ rows /\ r !! u "Status" = Some (CStr (u "Active")).
Proof.
  intros Hrows active. split; [|split].
  - unfold get_configs. rewrite run_print_then.
    unfold bind, call, ret. rewrite Hrows. unfold result_of. simpl.
    rewrite comprehension_filter, filter_is_active. reflexivity.
  - apply sublist_filter.
  - intros r. unfold active. rewrite list_elem_of_filter. tauto.
Qed.

(** ** Summarizer *)

(** C8: on an absent or empty transcript [summarize_text] returns the fixed
    placeholder, records no call (so none to the model) and leaves the
    world as it was. *)
Theorem summarize_absent_placeholder (text : option str) (project_name : cell) (w : W) :
  truthy text = false ->
  summarize_text sv text project_name w
  = (Ret (u "昨日のメッセージはありませんでした。"), w, []).
Proof.
  intros Hfalsy. destruct text as [[|c cs]|]; simpl in Hfalsy;
    try discriminate; reflexivity.
Qed.

(** C4: for a non-empty transcript the single call to the model carries a
    prompt whose log part is the first 20000 characters of the transcript:
    all of it when it has at most 20000 characters, and exactly 20000
    characters, the same ones position by position, when it has more. *)
Theorem prompt_embeds_first_20000 (text : str) (project_name : cell) (w : W) :
  text <> [] ->
  let embedded := take (Z.to_nat 20000) text in
  trace_of (summarize_text sv (Some text) project_name w)
  = [GenerateContent
       (PROMPT_HEAD ++ format_cell project_name ++ PROMPT_MIDDLE ++
        embedded ++ PROMPT_TAIL)] /\
  ((Z.of_nat (length text) <= 20000)%Z -> embedded = text) /\
  ((20000 < Z.of_nat (length text))%Z ->
   Z.of_nat (length embedded) = 20000%Z) /\
  forall i : nat, (Z.of_nat i < 20000)%Z -> embedded !! i = text !! i.
Proof.
  intros Hne embedded. split; [|split; [|split]].
  - destruct text as [|c cs]; [congruence|].
    unfold summarize_text, call, trace_of, build_prompt.
    destruct (generate_content sv _ w) as [r w1]. cbn [snd].
    rewrite slice_prefix by lia. reflexivity.
  - intros Hlen. apply firstn_all2. lia.
  - intros Hlen. unfold embedded. rewrite length_take. lia.
  - intros i Hi. unfold embedded. apply lookup_take_lt. lia.
Qed.

(** ** ChannelHistoryFetcher *)

Lemma append_lines (ms : list message) (acc : list str) :
  fold_left append_line ms acc
  = acc ++ map transcript_line (List.filter has_text ms).
Proof.
  revert acc. induction ms as [|m ms IH]; intros acc;
    cbn [fold_left List.filter map].
  - symmetry. apply app_nil_r.
  - rewrite IH. unfold append_line, has_text.
    destruct (text_of m) as [|c cs] eqn:Htext; [reflexivity|].
    cbn [map]. unfold transcript_line at 2. rewrite Htext.
    rewrite <- app_assoc. reflexivity.
Qed.

Lemma transcript_of_spec (messages : list message) :
  transcript_of messages = spec_transcript messages.
Proof.
  destruct messages as [|m ms]; [reflexivity|].
  unfold transcript_of, spec_transcript, kept_records, reversed.
  rewrite append_lines. reflexivity.
Qed.

Lemma sorted_rev (posted_at : message -> Z) (ms : list message) :
  newest_first posted_at ms -> oldest_first posted_at (rev ms).
Proof.
  unfold newest_first, oldest_first.
  induction 1 as [|m ms Hs IH Hall]; simpl; [constructor|].
  apply StronglySorted_app_2.
  - intros x1 x2 Hx1 Hx2. apply list_elem_of_singleton in Hx2. subst x2.
    apply list_elem_of_In, in_rev in Hx1.
    rewrite Forall_forall in Hall. apply Hall, list_elem_of_In, Hx1.
  - exact IH.
  - repeat constructor.
Qed.

Lemma sorted_filter {A} (R : relation A) (P : A -> bool) (l : list A) :
  StronglySorted R l -> StronglySorted R (List.filter P l).
Proof.
  induction 1 as [|x l Hs IH Hall]; simpl; [constructor|].
  destruct (P x); [|exact IH].
  constructor; [exact IH|].
  rewrite Forall_forall in *. intros y Hy.
  apply Hall. apply list_elem_of_In. apply list_elem_of_In in Hy.
  apply filter_In in Hy. tauto.
Qed.

(** What the fetch makes of the answer to the history request: a
    response becomes a transcript, an error is logged and becomes [None]. *)
Lemma fetch_run (channel_id : cell) (w w0 : W) (today yesterday : datetime) :
  now sv w = (today, w0) ->
  minus_days today 1 = Some yesterday ->
  get_yesterday_messages sv channel_id w
  = match conversations_history sv channel_id (window_oldest sv yesterday)
            (window_latest sv yesterday) w0 with
    | (Ret messages, w1) =>
        (Ret (transcript_of messages), w1,
         [ConversationsHistory channel_id (window_oldest sv yesterday)
            (window_latest sv yesterday)])
    | (Raise e, w1) =>
        (Ret None, w1,
         [ConversationsHistory channel_id (window_oldest sv yesterday)
            (window_latest sv yesterday);
          Print (u "Error fetching Slack: " ++ exn_str e)])
    end.
Proof.
  intros Hnow Hy. unfold get_yesterday_messages, bind at 1.
  rewrite Hnow, Hy. unfold try_except, bind, call, print, ret.
  destruct (conversations_history sv channel_id _ _ w0) as [[ms|e] w1];
    reflexivity.
Qed.

(** C3, as the program has it: when the history request answers with a
    list of records, the fetch returns absent for the empty list and
    otherwise the lines [User(<id>): <text>] of the records with a
    non-empty text, taken in the reverse of the order of the response and
    joined by newlines.  The order is oldest first when the response lists
    the newest record first, as Slack does; the program never reads a time
    stamp, so for another order of the response it is not. *)
Theorem transcript_is_chronological
    (channel_id : cell) (w w0 w1 : W) (today yesterday : datetime)
    (messages : list message) :
  now sv w = (today, w0) ->
  minus_days today 1 = Some yesterday ->
  conversations_history sv channel_id (window_oldest sv yesterday)
    (window_latest sv yesterday) w0 = (Ret messages, w1) ->
  result_of (get_yesterday_messages sv channel_id w)
  = Ret (match messages with
         | [] => None
         | _ :: _ =>
             Some (join nl (map transcript_line (kept_records messages)))
         end) /\
  (forall m : message,
      m ∈ kept_records messages <-> m ∈ messages /\ text_of m <> []) /\
  (forall posted_at : message -> Z,
      newest_first posted_at messages ->
      oldest_first posted_at (kept_records messages)).
Proof.
  intros Hnow Hy Hcall. split; [|split].
  - rewrite (fetch_run _ _ _ _ _ Hnow Hy), Hcall. unfold result_of. simpl.
    rewrite transcript_of_spec. reflexivity.
  - intros m. unfold kept_records.
    rewrite !list_elem_of_In, filter_In, <- in_rev. unfold has_text.
    destruct (text_of m); split; intros [? ?]; split;
      congruence || assumption.
  - intros posted_at Hsorted. unfold kept_records, oldest_first.
    apply sorted_filter. apply sorted_rev. exact Hsorted.
Qed.

(** ** Orchestrator: one iteration *)

Section Iteration.

Variables (config : row) (project_name channel_id : cell).
Hypothesis Hname : config !! u "プロジェクト名" = Some project_name.
Hypothesis Hchannel : config !! u "SlackチャンネルID" = Some channel_id.

Lemma process_config_falsy (w w1 : W) (t : option str) (tf : list event) :
  get_yesterday_messages sv channel_id w = (Ret t, w1, tf) ->
  truthy t = false ->
  process_config sv config w
  = (Ret tt, w1, processing_line project_name :: tf ++ [Print (u "No messages.")]).
Proof.
  intros Hfetch Hfalsy. unfold process_config, getitem.
  rewrite Hname, Hchannel, !run_ret_bind, run_print_then.
  rewrite (run_bind_ret _ _ _ _ _ _ Hfetch). rewrite Hfalsy.
  reflexivity.
Qed.

Lemma process_config_truthy (w w1 : W) (t : option str) (tf : list event) :
  get_yesterday_messages sv channel_id w = (Ret t, w1, tf) ->
  truthy t = true ->
  process_config sv config w
  = match summarize_text sv t project_name w1 with
    | (Ret summary, w2, ts) =>
        let r := create_google_doc sv project_name summary w2 in
        (result_of r, world_of r,
         processing_line project_name :: tf ++
         Print (u "Summarizing with Gemini...") :: ts ++ trace_of r)
    | (Raise e, w2, ts) =>
        (Raise e, w2,
         processing_line project_name :: tf ++
         Print (u "Summarizing with Gemini...") :: ts)
    end.
Proof.
  intros Hfetch Htruthy. unfold process_config, getitem.
  rewrite Hname, Hchannel, !run_ret_bind, run_print_then.
  rewrite (run_bind_ret _ _ _ _ _ _ Hfetch). rewrite Htruthy.
  rewrite run_print_then.
  destruct (summarize_text sv t project_name w1) as [[[summary|e] w2] ts]
    eqn:Hsum.
  - rewrite (run_bind_ret _ _ _ _ _ _ Hsum). reflexivity.
  - rewrite (run_bind_raise _ _ _ _ _ _ Hsum). reflexivity.
Qed.

End Iteration.

(** C10: a non-empty response in which no record has a non-empty text
    gives the empty string, not [None]; the iteration then prints
    [No messages.] and calls neither the model nor the publisher. *)
Theorem textless_messages_skip_project
    (config : row) (project_name channel_id : cell) (w w0 w1 : W)
    (today yesterday : datetime) (messages : list message) :
  config !! u "プロジェクト名" = Some project_name ->
  config !! u "SlackチャンネルID" = Some channel_id ->
  now sv w = (today, w0) ->
  minus_days today 1 = Some yesterday ->
  conversations_history sv channel_id (window_oldest sv yesterday)
    (window_latest sv yesterday) w0 = (Ret messages, w1) ->
  messages <> [] ->
  Forall (fun m => text_of m = []) messages ->
  result_of (get_yesterday_messages sv channel_id w) = Ret (Some []) /\
  process_config sv config w
  = (Ret tt, w1,
     [processing_line project_name;
      ConversationsHistory channel_id (window_oldest sv yesterday)
        (window_latest sv yesterday);
      Print (u "No messages.")]).
Proof.
  intros Hname Hchannel Hnow Hy Hcall Hne Hall.
  assert (Hkept : kept_records messages = []).
  { unfold kept_records. apply Forall_rev in Hall.
    induction Hall as [|m ms Hm _ IH]; [reflexivity|].
    cbn [List.filter]. unfold has_text. rewrite Hm. exact IH. }
  assert (Hfetch : get_yesterday_messages sv channel_id w
                   = (Ret (Some []), w1,
                      [ConversationsHistory channel_id
                         (window_oldest sv yesterday)
                         (window_latest sv yesterday)])).
  { rewrite (fetch_run _ _ _ _ _ Hnow Hy), Hcall, transcript_of_spec.
    destruct messages as [|m ms]; [congruence|].
    unfold spec_transcript. rewrite Hkept. reflexivity. }
  split.
  - rewrite Hfetch. reflexivity.
  - rewrite (process_config_falsy _ _ _ Hname Hchannel _ _ _ _ Hfetch);
      reflexivity.
Qed.

(** A channel without messages in the window: the fetch returns [None] and
    the iteration only prints. *)
Lemma no_messages_iteration
    (config : row) (project_name channel_id : cell) (w w0 w1 : W)
    (today yesterday : datetime) :
  config !! u "プロジェクト名" = Some project_name ->
  config !! u "SlackチャンネルID" = Some channel_id ->
  now sv w = (today, w0) ->
  minus_days today 1 = Some yesterday ->
  conversations_history sv channel_id (window_oldest sv yesterday)
    (window_latest sv yesterday) w0 = (Ret [], w1) ->
  result_of (get_yesterday_messages sv channel_id w) = Ret None /\
  process_config sv config w
  = (Ret tt, w1,
     [processing_line project_name;
      ConversationsHistory channel_id (window_oldest sv yesterday)
        (window_latest sv yesterday);
      Print (u "No messages.")]).
Proof.
  intros Hname Hchannel Hnow Hy Hcall.
  assert (Hfetch : get_yesterday_messages sv channel_id w
                   = (Ret None, w1,
                      [ConversationsHistory channel_id
                         (window_oldest sv yesterday)
                         (window_latest sv yesterday)])).
  { rewrite (fetch_run _ _ _ _ _ Hnow Hy), Hcall. reflexivity. }
  split.
  - rewrite Hfetch. reflexivity.
  - rewrite (process_config_falsy _ _ _ Hname Hchannel _ _ _ _ Hfetch);
      reflexivity.
Qed.

(** C6: when the history request raises, the fetch logs the error and
    returns [None] without raising; the iteration ends as for a channel
    without messages and the loop goes on with the remaining projects. *)
Theorem fetch_error_swallowed
    (config : row) (rest : list row) (project_name channel_id : cell)
    (w w0 w1 : W) (today yesterday : datetime) (e : exn) :
  config !! u "プロジェクト名" = Some project_name ->
  config !! u "SlackチャンネルID" = Some channel_id ->
  now sv w = (today, w0) ->
  minus_days today 1 = Some yesterday ->
  conversations_history sv channel_id (window_oldest sv yesterday)
    (window_latest sv yesterday) w0 = (Raise e, w1) ->
  let request :=
    ConversationsHistory channel_id (window_oldest sv yesterday)
      (window_latest sv yesterday) in
  let logged := Print (u "Error fetching Slack: " ++ exn_str e) in
  get_yesterday_messages sv channel_id w = (Ret None, w1, [request; logged]) /\
  process_config sv config w
  = (Ret tt, w1,
     [processing_line project_name; request; logged;
      Print (u "No messages.")]) /\
  for_each (config :: rest) (process_config sv) w
  = (result_of (for_each rest (process_config sv) w1),
     world_of (for_each rest (process_config sv) w1),
     [processing_line project_name; request; logged;
      Print (u "No messages.")]
     ++ trace_of (for_each rest (process_config sv) w1)).
Proof.
  intros Hname Hchannel Hnow Hy Hcall request logged.
  assert (Hfetch : get_yesterday_messages sv channel_id w
                   = (Ret None, w1, [request; logged])).
  { rewrite (fetch_run _ _ _ _ _ Hnow Hy), Hcall. reflexivity. }
  assert (Hiter : process_config sv config w
                  = (Ret tt, w1,
                     [processing_line project_name; request; logged;
                      Print (u "No messages.")])).
  { rewrite (process_config_falsy _ _ _ Hname Hchannel _ _ _ _ Hfetch);
      reflexivity. }
  split; [exact Hfetch|]. split; [exact Hiter|].
  apply for_each_cons. exact Hiter.
Qed.

(** ** Summarizer failure *)

(** C7: when the call to the model raises for a project reached by the
    loop, [summarize_text], the iteration and [main] all end with that
    exception; the trace of the run stops at the call to the model, so no
    publisher call is made for the project and nothing is done for the
    projects after it. *)
Theorem inference_failure_halts_run
    (done rest : list row) (config : row) (project_name channel_id : cell)
    (w wc wa w0 w1 w2 : W) (tc ta : list event)
    (today yesterday : datetime) (messages : list message)
    (text : str) (e : exn) :
  get_configs sv w = (Ret (done ++ config :: rest), wc, tc) ->
  for_each done (process_config sv) wc = (Ret tt, wa, ta) ->
  config !! u "プロジェクト名" = Some project_name ->
  config !! u "SlackチャンネルID" = Some channel_id ->
  now sv wa = (today, w0) ->
  minus_days today 1 = Some yesterday ->
  conversations_history sv channel_id (window_oldest sv yesterday)
    (window_latest sv yesterday) w0 = (Ret messages, w1) ->
  transcript_of messages = Some text ->
  text <> [] ->
  generate_content sv (build_prompt text project_name) w1 = (Raise e, w2) ->
  let iteration :=
    [processing_line project_name;
     ConversationsHistory channel_id (window_oldest sv yesterday)
       (window_latest sv yesterday);
     Print (u "Summarizing with Gemini...");
     GenerateContent (build_prompt text project_name)] in
  summarize_text sv (Some text) project_name w1
  = (Raise e, w2, [GenerateContent (build_prompt text project_name)]) /\
  process_config sv config wa = (Raise e, w2, iteration) /\
  main sv w
  = (Raise e, w2,
     tc ++
     Print (u "Found " ++ str_of_nat (length (done ++ config :: rest))
            ++ u " active projects.")
     :: ta ++ iteration).
Proof.
  intros Hcfg Hdone Hname Hchannel Hnow Hy Hcall Htext Hne Hgen iteration.
  assert (Hsum : summarize_text sv (Some text) project_name w1
                 = (Raise e, w2,
                    [GenerateContent (build_prompt text project_name)])).
  { destruct text as [|c cs]; [congruence|].
    unfold summarize_text, call. rewrite Hgen. reflexivity. }
  assert (Hfetch : get_yesterday_messages sv channel_id wa
                   = (Ret (Some text), w1,
                      [ConversationsHistory channel_id
                         (window_oldest sv yesterday)
                         (window_latest sv yesterday)])).
  { rewrite (fetch_run _ _ _ _ _ Hnow Hy), Hcall, Htext. reflexivity. }
  assert (Hiter : process_config sv config wa = (Raise e, w2, iteration)).
  { rewrite (process_config_truthy _ _ _ Hname Hchannel _ _ _ _ Hfetch).
    - rewrite Hsum. reflexivity.
    - destruct text; [congruence|reflexivity]. }
  split; [exact Hsum|]. split; [exact Hiter|].
  unfold main. rewrite (run_bind_ret _ _ _ _ _ _ Hcfg).
  rewrite run_print_then.
  rewrite (for_each_app _ _ _ _ _ _ Hdone).
  cbn [for_each]. rewrite (run_bind_raise _ _ _ _ _ _ Hiter).
  reflexivity.
Qed.

(** ** DocumentPublisher *)

Lemma create_run (project_name : cell) (summary : str) (w w0 : W)
    (today yesterday : datetime) :
  now sv w = (today, w0) ->
  minus_days today 1 = Some yesterday ->
  exists rest,
    trace_of (create_google_doc sv project_name summary w)
    = DocumentsCreate (doc_title yesterday project_name) :: rest /\
    List.filter is_create rest = [].
Proof.
  intros Hnow Hy. unfold create_google_doc, bind at 1.
  rewrite Hnow, Hy. unfold bind, call, print, raise, ret, trace_of.
  destruct (documents_create sv _ w0) as [[doc_id|e1] wa];
    [|eexists; split; reflexivity].
  destruct (documents_batchUpdate sv doc_id summary wa) as [[[]|e2] wb];
    [|eexists; split; reflexivity].
  destruct (files_get sv doc_id wb) as [[[ps|]|e3] wd];
    [|eexists; split; reflexivity..].
  destruct (files_update sv doc_id _ _ wd) as [[[]|e4] we];
    eexists; split; reflexivity.
Qed.


(** ** Orchestrator: when a document is created *)

Lemma quiet_filter (l : list event) :
  Forall quiet l -> List.filter is_publisher_op l = [].
Proof.
  induction 1 as [|ev l Hev _ IH]; [reflexivity|].
  cbn [List.filter]. rewrite Hev. exact IH.
Qed.

Lemma quiet_no_create (l : list event) (title : str) :
  Forall quiet l -> DocumentsCreate title ∈ l -> False.
Proof.
  intros Hall Hin. rewrite Forall_forall in Hall.
  specialize (Hall _ Hin). discriminate Hall.
Qed.

Lemma fetch_total (channel_id : cell) (w : W) :
  clock_sane sv ->
  exists t w1 tf,
    get_yesterday_messages sv channel_id w = (Ret t, w1, tf) /\
    Forall quiet tf.
Proof.
  intros Hclock. specialize (Hclock w).
  destruct (now sv w) as [today w0] eqn:Hnow. cbn [fst] in Hclock.
  destruct (minus_days today 1) as [yesterday|] eqn:Hy; [|congruence].
  rewrite (fetch_run _ _ _ _ _ Hnow Hy).
  destruct (conversations_history sv channel_id _ _ w0) as [[ms|e] w1];
    do 3 eexists; (split; [reflexivity|]); repeat constructor.
Qed.

Lemma summarize_quiet (t : option str) (project_name : cell) (w : W) :
  Forall quiet (trace_of (summarize_text sv t project_name w)).
Proof.
  destruct t as [[|c cs]|]; try constructor.
  unfold summarize_text, call, trace_of.
  destruct (generate_content sv _ w) as [r w1]. repeat constructor.
Qed.

(** C1, as the program has it: in an iteration whose configuration row
    names the project and the channel, under a sane clock, the fetch
    returns a transcript; if it is absent or empty no publisher call is
    made; and a document create request is made exactly when the
    transcript is non-empty and the call to the model returns a summary. *)
Theorem document_created_iff
    (config : row) (project_name channel_id : cell) (w : W) :
  clock_sane sv ->
  config !! u "プロジェクト名" = Some project_name ->
  config !! u "SlackチャンネルID" = Some channel_id ->
  exists (t : option str) (w1 : W) (tf : list event),
    get_yesterday_messages sv channel_id w = (Ret t, w1, tf) /\
    (truthy t = false ->
     List.filter is_publisher_op (trace_of (process_config sv config w)) = []) /\
    ((exists title,
         DocumentsCreate title ∈ trace_of (process_config sv config w)) <->
     truthy t = true /\
     exists summary,
       result_of (summarize_text sv t project_name w1) = Ret summary).
Proof.
  intros Hclock Hname Hchannel.
  destruct (fetch_total channel_id w Hclock) as (t & w1 & tf & Hfetch & Hq).
  exists t, w1, tf. split; [exact Hfetch|].
  destruct (truthy t) eqn:Ht.
  - split; [discriminate|].
    rewrite (process_config_truthy _ _ _ Hname Hchannel _ _ _ _ Hfetch Ht).
    pose proof (summarize_quiet t project_name w1) as Hsq.
    destruct (summarize_text sv t project_name w1)
      as [[[summary|e] w2] ts] eqn:Hsum; unfold trace_of in Hsq; cbn in Hsq.
    + split; [intros _; split; [reflexivity|]; exists summary; reflexivity|].
      intros _. pose proof (Hclock w2) as Hc2.
      destruct (now sv w2) as [today2 w3] eqn:Hnow2. cbn [fst] in Hc2.
      destruct (minus_days today2 1) as [y2|] eqn:Hy2; [|congruence].
      destruct (create_run project_name summary _ _ _ _ Hnow2 Hy2)
        as (rest & Htrace & _).
      exists (doc_title y2 project_name).
      unfold trace_of at 1. cbn [snd]. rewrite Htrace.
      apply list_elem_of_further. apply elem_of_app. right.
      apply list_elem_of_further. apply elem_of_app. right.
      apply list_elem_of_here.
    + split.
      * intros [title Hin]. exfalso.
        unfold trace_of in Hin. cbn [snd] in Hin.
        apply (quiet_no_create _ title) in Hin; [exact Hin|].
        constructor; [reflexivity|].
        apply Forall_app. split; [exact Hq|].
        constructor; [reflexivity|exact Hsq].
      * intros [_ [summary Hres]]. discriminate Hres.
  - split.
    + intros _.
      rewrite (process_config_falsy _ _ _ Hname Hchannel _ _ _ _ Hfetch Ht).
      apply quiet_filter. constructor; [reflexivity|].
      apply Forall_app. split; [exact Hq|]. repeat constructor.
    + split; [|intros [Hcontra _]; discriminate Hcontra].
      intros [title Hin]. exfalso.
      rewrite (process_config_falsy _ _ _ Hname Hchannel _ _ _ _ Hfetch Ht)
        in Hin.
      apply (quiet_no_create _ title) in Hin; [exact Hin|].
      constructor; [reflexivity|].
      apply Forall_app. split; [exact Hq|]. repeat constructor.
Qed.

End Claims.

(** ** The library models on known values *)

Example utf8_literal : u "日報" = [26085%N; 22577%N].
Proof. reflexivity. Qed.

Example previous_day_in_month : ord2ymd (ymd2ord 2024 5 2 - 1) = (2024, 5, 1)%Z.
Proof. reflexivity. Qed.

Example previous_day_leap : ord2ymd (ymd2ord 2024 3 1 - 1) = (2024, 2, 29)%Z.
Proof. reflexivity. Qed.

Example previous_day_century : ord2ymd (ymd2ord 2100 3 1 - 1) = (2100, 2, 28)%Z.
Proof. reflexivity. Qed.

Example previous_day_new_year : ord2ymd (ymd2ord 2024 1 1 - 1) = (2023, 12, 31)%Z.
Proof. reflexivity. Qed.

Example epoch_ordinal : ymd2ord 1970 1 1 = EPOCH_ORDINAL.
Proof. reflexivity. Qed.

Example max_ordinal : ymd2ord 9999 12 31 = MAXORDINAL.
Proof. reflexivity. Qed.

Example first_day_has_no_yesterday :
  minus_days (mk_datetime 1 1 1 12 0 0 0) 1 = None.
Proof. reflexivity. Qed.

Example slice_negative_stop : slice [1; 2; 3; 4; 5] (Some 1%Z) (Some (-1)%Z) = [2; 3; 4].
Proof. reflexivity. Qed.

Example join_three : join (u ",") [u "a"; u "b"; u "c"] = u "a,b,c".
Proof. reflexivity. Qed.

Lemma demo_clock_sane clock rows history reply :
  minus_days clock 1 <> None ->
  clock_sane (demo_services clock rows history reply).
Proof. intros Hclock w. exact Hclock. Qed.

(** ** The window of the history request *)

(** C2 at [now() = 2024-05-02 10:30:15.250000], UTC: the request asks for
    1714521600.25 to 1714607999.25, a quarter of a second after yesterday's
    00:00:00 (1714521600) and 23:59:59 (1714607999), because [replace]
    leaves the microseconds of [now()] in place. *)
Theorem window_keeps_microseconds :
  trace_of (get_yesterday_messages demo_ok (CStr (u "C2")) 0)
  = [ConversationsHistory (CStr (u "C2"))
       1714521600250000 1714607999250000] /\
  timestamp (utcoffset demo_ok) (midnight (mk_datetime 2024 5 1 0 0 0 0))
  = 1714521600000000%Z /\
  timestamp (utcoffset demo_ok) (last_second (mk_datetime 2024 5 1 0 0 0 0))
  = 1714607999000000%Z.
Proof. repeat split; vm_compute; reflexivity. Qed.

(** The bounds in general: each is the exact second of yesterday plus the
    microseconds of the clock reading, when the zone offset does not depend
    on the fraction of a second. *)
Lemma window_bounds_shifted {W} (sv : services W) (yesterday : datetime) :
  utcoffset sv (replace_hms yesterday 0 0 0) = utcoffset sv (midnight yesterday) ->
  utcoffset sv (replace_hms yesterday 23 59 59)
  = utcoffset sv (last_second yesterday) ->
  window_oldest sv yesterday
  = (timestamp (utcoffset sv) (midnight yesterday) + microsecond yesterday)%Z /\
  window_latest sv yesterday
  = (timestamp (utcoffset sv) (last_second yesterday)
     + microsecond yesterday)%Z.
Proof.
  intros H0 H1. unfold window_oldest, window_latest, timestamp.
  rewrite H0, H1. unfold midnight, last_second, replace_hms, toordinal.
  cbn [year month day hour minute second microsecond]. lia.
Qed.

Lemma window_bounds_shifted_witness :
  window_oldest demo_ok (mk_datetime 2024 5 1 10 30 15 250000)
  = (timestamp (utcoffset demo_ok)
       (midnight (mk_datetime 2024 5 1 10 30 15 250000)) + 250000)%Z.
Proof.
  exact (proj1 (window_bounds_shifted demo_ok
                  (mk_datetime 2024 5 1 10 30 15 250000) eq_refl eq_refl)).
Defined.

(** ** The claims on the example world *)

Example demo_active_rows :
  match result_of (get_configs demo_ok 0) with
  | Ret configs => map (fun r : row => r !! u "プロジェクト名") configs
  | Raise _ => []
  end
  = [Some (CStr (u "Alpha")); Some (CStr (u "Beta")); Some (CStr (u "Delta"));
     Some (CStr (u "Epsilon"))].
Proof. vm_compute. reflexivity. Qed.

Lemma get_configs_active_subsequence_witness :
  get_all_records demo_ok 0 = (Ret demo_rows, 1) /\
  result_of (get_configs demo_ok 0)
  = Ret (filter (fun r : row => r !! u "Status" = Some (CStr (u "Active")))
           demo_rows).
Proof.
  split; [reflexivity|].
  exact (proj1 (get_configs_active_subsequence demo_ok 0 demo_rows 1 eq_refl)).
Defined.

Lemma summarize_absent_placeholder_witness :
  truthy (Some []) = false /\
  summarize_text demo_ok (Some []) (CStr (u "Alpha")) 0
  = (Ret (u "昨日のメッセージはありませんでした。"), 0, []).
Proof.
  split; [reflexivity|].
  exact (summarize_absent_placeholder demo_ok (Some []) (CStr (u "Alpha")) 0
           eq_refl).
Defined.

Lemma alpha_transcript_nonempty : alpha_transcript <> [].
Proof. discriminate. Defined.

Lemma prompt_embeds_first_20000_witness :
  alpha_transcript <> [] /\
  trace_of (summarize_text demo_ok (Some alpha_transcript) (CStr (u "Alpha")) 0)
  = [GenerateContent
       (PROMPT_HEAD ++ format_cell (CStr (u "Alpha")) ++ PROMPT_MIDDLE ++
        take (Z.to_nat 20000) alpha_transcript ++ PROMPT_TAIL)].
Proof.
  split; [exact alpha_transcript_nonempty|].
  exact (proj1 (prompt_embeds_first_20000 demo_ok alpha_transcript
                  (CStr (u "Alpha")) 0 alpha_transcript_nonempty)).
Defined.

Example long_transcript_is_cut :
  let text := repeat 97%N (Z.to_nat 20005) in
  Z.of_nat (length text) = 20005%Z /\
  Z.of_nat (length (slice text None (Some 20000%Z))) = 20000%Z.
Proof. vm_compute. split; reflexivity. Qed.

Lemma demo_newest_first_sorted : newest_first ts_of demo_newest_first.
Proof.
  unfold newest_first, demo_newest_first.
  repeat constructor; vm_compute; discriminate.
Qed.

Lemma transcript_is_chronological_witness :
  conversations_history demo_ts (CStr (u "N"))
    (window_oldest demo_ts demo_yesterday)
    (window_latest demo_ts demo_yesterday) 0
  = (Ret demo_newest_first, 1) /\
  newest_first ts_of demo_newest_first /\
  result_of (get_yesterday_messages demo_ts (CStr (u "N")) 0)
  = Ret (Some (u "User(U1): first" ++ nl ++ u "User(U3): third")) /\
  oldest_first ts_of (kept_records demo_newest_first).
Proof.
  split; [reflexivity|]. split; [exact demo_newest_first_sorted|].
  destruct (transcript_is_chronological demo_ts (CStr (u "N")) 0 0 1
              demo_clock demo_yesterday demo_newest_first
              eq_refl eq_refl eq_refl) as (Hresult & _ & Horder).
  split; [exact Hresult|].
  exact (Horder ts_of demo_newest_first_sorted).
Defined.

(** C3 as stated fails for a response that is not newest first: Slack's
    answer [U1 at 100; U2 at 200] gives the transcript with U2's line
    before U1's, so its records are not oldest first. *)
Lemma oldest_first_response_is_reversed :
  conversations_history demo_ts (CStr (u "O"))
    (window_oldest demo_ts demo_yesterday)
    (window_latest demo_ts demo_yesterday) 0
  = (Ret demo_oldest_first, 1) /\
  result_of (get_yesterday_messages demo_ts (CStr (u "O")) 0)
  = Ret (Some (u "User(U2): bb" ++ nl ++ u "User(U1): a")) /\
  map ts_of (kept_records demo_oldest_first) = [200%Z; 100%Z] /\
  ~ oldest_first ts_of (kept_records demo_oldest_first) /\
  ~ transcript_always_oldest_first.
Proof.
  assert (Hnot : ~ oldest_first ts_of (kept_records demo_oldest_first)).
  { change (kept_records demo_oldest_first)
      with [demo_message_at "200" "U2" "bb"; demo_message_at "100" "U1" "a"].
    unfold oldest_first. intros Hsorted.
    apply StronglySorted_inv in Hsorted as [_ Hall].
    apply Forall_inv in Hall. vm_compute in Hall. apply Hall. reflexivity. }
  split; [reflexivity|]. split; [vm_compute; reflexivity|].
  split; [vm_compute; reflexivity|]. split; [exact Hnot|].
  intros Hclaim. apply Hnot. apply Hclaim. discriminate.
Qed.

Lemma textless_messages_skip_project_witness :
  result_of (get_yesterday_messages demo_ok (CStr (u "C3")) 0) = Ret (Some []) /\
  process_config demo_ok (demo_row "Epsilon" "C3" "Active") 0
  = (Ret tt, 1,
     [processing_line (CStr (u "Epsilon"));
      ConversationsHistory (CStr (u "C3")) (window_oldest demo_ok demo_yesterday)
        (window_latest demo_ok demo_yesterday);
      Print (u "No messages.")]).
Proof.
  refine (textless_messages_skip_project demo_ok
            (demo_row "Epsilon" "C3" "Active") (CStr (u "Epsilon"))
            (CStr (u "C3")) 0 0 1 demo_clock demo_yesterday
            [demo_message "U3" ""; <[u "user" := u "U4"]> ∅]
            eq_refl eq_refl eq_refl eq_refl eq_refl _ _).
  - discriminate.
  - repeat constructor.
Defined.

Lemma fetch_error_swallowed_witness :
  conversations_history demo_ok (CStr (u "C4"))
    (window_oldest demo_ok demo_yesterday)
    (window_latest demo_ok demo_yesterday) 0
  = (Raise (mk_exn ServiceError (u "channel_not_found")), 1) /\
  get_yesterday_messages demo_ok (CStr (u "C4")) 0
  = (Ret None, 1,
     [ConversationsHistory (CStr (u "C4")) (window_oldest demo_ok demo_yesterday)
        (window_latest demo_ok demo_yesterday);
      Print (u "Error fetching Slack: " ++ u "channel_not_found")]).
Proof.
  split; [reflexivity|].
  exact (proj1 (fetch_error_swallowed demo_ok
                  (demo_row "Delta" "C4" "Active") [] (CStr (u "Delta"))
                  (CStr (u "C4")) 0 0 1 demo_clock demo_yesterday
                  (mk_exn ServiceError (u "channel_not_found"))
                  eq_refl eq_refl eq_refl eq_refl eq_refl)).
Defined.

Lemma inference_failure_halts_run_witness :
  result_of (main demo_failing 0)
  = Raise (mk_exn ServiceError (u "quota exceeded")) /\
  List.filter is_publisher_op (trace_of (main demo_failing 0)) = [] /\
  List.filter is_generate (trace_of (main demo_failing 0))
  = [GenerateContent (build_prompt alpha_transcript (CStr (u "Alpha")))].
Proof.
  pose proof (inference_failure_halts_run demo_failing
                [demo_row "Beta" "C2" "Active"]
                [demo_row "Delta" "C4" "Active"] alpha
                (CStr (u "Alpha")) (CStr (u "C1")) 0 1 2 2 3 4
                (trace_of (get_configs demo_failing 0))
                (trace_of (for_each [demo_row "Beta" "C2" "Active"]
                             (process_config demo_failing) 1))
                demo_clock demo_yesterday
                [demo_message "U2" "second"; demo_message "U9" "";
                 demo_message "U1" "first"]
                alpha_transcript
                (mk_exn ServiceError (u "quota exceeded"))
                eq_refl eq_refl eq_refl eq_refl eq_refl eq_refl eq_refl
                eq_refl alpha_transcript_nonempty eq_refl) as H.
  destruct H as (_ & _ & Hmain). rewrite Hmain.
  repeat split; vm_compute; reflexivity.
Defined.



(** The format on dates away from the example: a leap day and the last day
    of a year. *)
Example iso_date_leap_day :
  strftime_Ymd (mk_datetime 2024 2 29 0 0 0 0) = u "2024-02-29" /\
  iso_date 2024 2 29 = u "2024-02-29".
Proof. split; reflexivity. Qed.

Example iso_date_year_end :
  strftime_Ymd (mk_datetime 1999 12 31 23 59 59 0) = u "1999-12-31" /\
  iso_date 1999 12 31 = u "1999-12-31".
Proof. split; reflexivity. Qed.

(** ** A transcript without a document *)

Lemma demo_failing_clock_sane : clock_sane demo_failing.
Proof. apply demo_clock_sane. discriminate. Defined.

Lemma document_created_iff_witness :
  clock_sane demo_failing /\
  exists (t : option str) (w1 : nat) (tf : list event),
    get_yesterday_messages demo_failing (CStr (u "C1")) 0 = (Ret t, w1, tf) /\
    (truthy t = false ->
     List.filter is_publisher_op (trace_of (process_config demo_failing alpha 0))
     = []) /\
    ((exists title,
         DocumentsCreate title ∈ trace_of (process_config demo_failing alpha 0))
     <->
     truthy t = true /\
     exists summary,
       result_of (summarize_text demo_failing t (CStr (u "Alpha")) w1)
       = Ret summary).
Proof.
  split; [exact demo_failing_clock_sane|].
  exact (document_created_iff demo_failing alpha (CStr (u "Alpha"))
           (CStr (u "C1")) 0 demo_failing_clock_sane eq_refl eq_refl).
Defined.

(** C1 as stated fails when the model raises: for the project Alpha the
    fetch returns a non-empty transcript, yet the iteration makes no create
    request, so the literal equivalence does not hold. *)
Lemma transcript_without_document :
  get_yesterday_messages demo_failing (CStr (u "C1")) 0
  = (Ret (Some alpha_transcript), 1,
     [ConversationsHistory (CStr (u "C1")) 1714521600250000 1714607999250000]) /\
  truthy (Some alpha_transcript) = true /\
  List.filter is_create (trace_of (process_config demo_failing alpha 0)) = [] /\
  ~ created_iff_transcript demo_failing alpha (CStr (u "C1")) 0.
Proof.
  assert (Hfetch : get_yesterday_messages demo_failing (CStr (u "C1")) 0
                   = (Ret (Some alpha_transcript), 1,
                      [ConversationsHistory (CStr (u "C1"))
                         1714521600250000 1714607999250000])).
  { vm_compute. reflexivity. }
  assert (Hnone : List.filter is_create
                    (trace_of (process_config demo_failing alpha 0)) = []).
  { vm_compute. reflexivity. }
  split; [exact Hfetch|]. split; [reflexivity|]. split; [exact Hnone|].
  intros Hclaim. destruct (Hclaim _ _ _ Hfetch) as [_ Hcreated].
  destruct (Hcreated eq_refl) as [title Hin].
  apply list_elem_of_In in Hin.
  assert (Hkept : In (DocumentsCreate title)
                    (List.filter is_create
                       (trace_of (process_config demo_failing alpha 0)))).
  { apply filter_In. split; [exact Hin|reflexivity]. }
  rewrite Hnone in Hkept. exact Hkept.
Qed.

(** With a model that answers, the same project gets its document. *)
Example document_created_when_model_answers :
  List.filter is_create (trace_of (process_config demo_ok alpha 0))
  = [DocumentsCreate (u "2024-05-01_Alpha_日報")].
Proof. vm_compute. reflexivity. Qed.

(** A whole run: two projects with a transcript (one of them empty of
    text), one without messages, one whose fetch fails; one document. *)
Example demo_run_creates_one_document :
  result_of (main demo_ok 0) = Ret tt /\
  List.filter is_create (trace_of (main demo_ok 0))
  = [DocumentsCreate (u "2024-05-01_Alpha_日報")].
Proof. vm_compute. split; reflexivity. Qed.

(** * Further properties *)

(** ** DocumentPublisher: order of the calls and failures *)

Section Publisher.

Context {W : Type} (sv : services W).

(** Every way [create_google_doc] can end, once the clock is read. *)
Lemma create_google_doc_run (project_name : cell) (summary : str) (w w0 : W)
    (today yesterday : datetime) :
  now sv w = (today, w0) ->
  minus_days today 1 = Some yesterday ->
  let title := doc_title yesterday project_name in
  create_google_doc sv project_name summary w
  = match documents_create sv title w0 with
    | (Raise e, wa) => (Raise e, wa, [DocumentsCreate title])
    | (Ret doc_id, wa) =>
        let created :=
          [DocumentsCreate title; Print (u "Created Doc: " ++ title);
           DocumentsBatchUpdate doc_id summary] in
        match documents_batchUpdate sv doc_id summary wa with
        | (Raise e, wb) => (Raise e, wb, created)
        | (Ret _, wb) =>
            match files_get sv doc_id wb with
            | (Raise e, wd) => (Raise e, wd, created ++ [FilesGet doc_id])
            | (Ret None, wd) =>
                (Raise (mk_exn TypeError (u "can only join an iterable")), wd,
                 created ++ [FilesGet doc_id])
            | (Ret (Some ps), wd) =>
                let move :=
                  FilesUpdate doc_id (DRIVE_FOLDER_ID sv) (join (u ",") ps) in
                match files_update sv doc_id (DRIVE_FOLDER_ID sv)
                        (join (u ",") ps) wd with
                | (Raise e, we) =>
                    (Raise e, we, created ++ [FilesGet doc_id; move])
                | (Ret _, we) =>
                    (Ret tt, we,
                     created ++
                     [FilesGet doc_id; move; Print (u "Moved to folder.")])
                end
            end
        end
    end.
Proof.
  intros Hnow Hy title. unfold create_google_doc, bind at 1.
  rewrite Hnow, Hy. fold title. unfold bind, call, print, raise, ret.
  destruct (documents_create sv title w0) as [[doc_id|e1] wa]; [|reflexivity].
  destruct (documents_batchUpdate sv doc_id summary wa) as [[[]|e2] wb];
    [|reflexivity].
  destruct (files_get sv doc_id wb) as [[[ps|]|e3] wd]; [|reflexivity..].
  destruct (files_update sv doc_id _ _ wd) as [[[]|e4] we]; reflexivity.
Qed.

(** When the four requests succeed, [create_google_doc] makes exactly one
    create, one write, one read of the parents and one move, in this order:
    the write and the move address the document the create returned, the
    written text is the summary, the added parent is the target folder and
    the removed parents are the comma-joined parents that were read. *)
Theorem publish_calls_in_order
    (project_name : cell) (summary doc_id : str) (parents : list str)
    (w w0 wa wb wd we : W) (today yesterday : datetime) :
  now sv w = (today, w0) ->
  minus_days today 1 = Some yesterday ->
  documents_create sv (doc_title yesterday project_name) w0 = (Ret doc_id, wa) ->
  documents_batchUpdate sv doc_id summary wa = (Ret tt, wb) ->
  files_get sv doc_id wb = (Ret (Some parents), wd) ->
  files_update sv doc_id (DRIVE_FOLDER_ID sv) (join (u ",") parents) wd
  = (Ret tt, we) ->
  result_of (create_google_doc sv project_name summary w) = Ret tt /\
  world_of (create_google_doc sv project_name summary w) = we /\
  List.filter is_publisher_op
    (trace_of (create_google_doc sv project_name summary w))
  = [DocumentsCreate (doc_title yesterday project_name);
     DocumentsBatchUpdate doc_id summary;
     FilesGet doc_id;
     FilesUpdate doc_id (DRIVE_FOLDER_ID sv) (join (u ",") parents)].
Proof.
  intros Hnow Hy Hcreate Hwrite Hget Hmove.
  rewrite (create_google_doc_run _ _ _ _ _ _ Hnow Hy).
  cbv zeta. rewrite Hcreate, Hwrite, Hget, Hmove.
  repeat split; reflexivity.
Qed.

(** Whatever the services answer, the publisher calls of one
    [create_google_doc] are an initial part of create, write, read, move:
    no request is repeated after a failure, none is made out of order, and
    nothing is undone. *)
Theorem publish_calls_prefix
    (project_name : cell) (summary : str) (w w0 : W)
    (today yesterday : datetime) :
  now sv w = (today, w0) ->
  minus_days today 1 = Some yesterday ->
  exists (doc_id removed : str),
    List.filter is_publisher_op
      (trace_of (create_google_doc sv project_name summary w))
    `prefix_of`
    [DocumentsCreate (doc_title yesterday project_name);
     DocumentsBatchUpdate doc_id summary;
     FilesGet doc_id;
     FilesUpdate doc_id (DRIVE_FOLDER_ID sv) removed].
Proof.
  intros Hnow Hy. rewrite (create_google_doc_run _ _ _ _ _ _ Hnow Hy).
  cbv zeta.
  destruct (documents_create sv _ w0) as [[doc_id|e1] wa].
  - exists doc_id.
    destruct (documents_batchUpdate sv doc_id summary wa) as [[[]|e2] wb].
    + destruct (files_get sv doc_id wb) as [[[ps|]|e3] wd].
      * exists (join (u ",") ps).
        destruct (files_update sv doc_id _ _ wd) as [[[]|e4] we];
          exists []; reflexivity.
      * exists []. eexists. reflexivity.
      * exists []. eexists. reflexivity.
    + exists []. eexists. reflexivity.
  - exists [], []. eexists. reflexivity.
Qed.

(** When the file read back from Drive has no [parents] entry, the join
    raises a [TypeError] after the document was created and written: no
    move is requested and the document stays where it was created. *)
Theorem missing_parents_type_error
    (project_name : cell) (summary doc_id : str)
    (w w0 wa wb wd : W) (today yesterday : datetime) :
  now sv w = (today, w0) ->
  minus_days today 1 = Some yesterday ->
  documents_create sv (doc_title yesterday project_name) w0 = (Ret doc_id, wa) ->
  documents_batchUpdate sv doc_id summary wa = (Ret tt, wb) ->
  files_get sv doc_id wb = (Ret None, wd) ->
  (exists e, result_of (create_google_doc sv project_name summary w) = Raise e
             /\ exn_kind_of e = TypeError) /\
  world_of (create_google_doc sv project_name summary w) = wd /\
  List.filter is_publisher_op
    (trace_of (create_google_doc sv project_name summary w))
  = [DocumentsCreate (doc_title yesterday project_name);
     DocumentsBatchUpdate doc_id summary;
     FilesGet doc_id].
Proof.
  intros Hnow Hy Hcreate Hwrite Hget.
  rewrite (create_google_doc_run _ _ _ _ _ _ Hnow Hy).
  cbv zeta. rewrite Hcreate, Hwrite, Hget.
  split; [eexists; split; reflexivity|]. split; reflexivity.
Qed.

(** When the move fails after the create and the write succeeded, the
    exception leaves [create_google_doc]; the document exists with its text,
    [Moved to folder.] is not printed and no further request is made. *)
Theorem move_failure_leaves_document
    (project_name : cell) (summary doc_id : str) (parents : list str)
    (w w0 wa wb wd we : W) (today yesterday : datetime) (e : exn) :
  now sv w = (today, w0) ->
  minus_days today 1 = Some yesterday ->
  documents_create sv (doc_title yesterday project_name) w0 = (Ret doc_id, wa) ->
  documents_batchUpdate sv doc_id summary wa = (Ret tt, wb) ->
  files_get sv doc_id wb = (Ret (Some parents), wd) ->
  files_update sv doc_id (DRIVE_FOLDER_ID sv) (join (u ",") parents) wd
  = (Raise e, we) ->
  create_google_doc sv project_name summary w
  = (Raise e, we,
     [DocumentsCreate (doc_title yesterday project_name);
      Print (u "Created Doc: " ++ doc_title yesterday project_name);
      DocumentsBatchUpdate doc_id summary;
      FilesGet doc_id;
      FilesUpdate doc_id (DRIVE_FOLDER_ID sv) (join (u ",") parents)]).
Proof.
  intros Hnow Hy Hcreate Hwrite Hget Hmove.
  rewrite (create_google_doc_run _ _ _ _ _ _ Hnow Hy).
  cbv zeta. rewrite Hcreate, Hwrite, Hget, Hmove. reflexivity.
Qed.

End Publisher.

(** ** Orchestrator: how a run ends *)

Section Runs.

Context {W : Type} (sv : services W).

Lemma main_after_configs (configs : list row) (w wc : W) (tc : list event) :
  get_configs sv w = (Ret configs, wc, tc) ->
  main sv w
  = (result_of (for_each configs (process_config sv) wc),
     world_of (for_each configs (process_config sv) wc),
     tc ++ found_line configs
        :: trace_of (for_each configs (process_config sv) wc)).
Proof.
  intros Hcfg. unfold main. rewrite (run_bind_ret _ _ _ _ _ _ Hcfg).
  rewrite run_print_then. reflexivity.
Qed.

Lemma loop_stops_at_raise (done rest : list row) (config : row)
    (wc wa w2 : W) (ta ti : list event) (e : exn) :
  for_each done (process_config sv) wc = (Ret tt, wa, ta) ->
  process_config sv config wa = (Raise e, w2, ti) ->
  for_each (done ++ config :: rest) (process_config sv) wc
  = (Raise e, w2, ta ++ ti).
Proof.
  intros Hdone Hiter. rewrite (for_each_app _ _ _ _ _ _ Hdone).
  cbn [for_each]. rewrite (run_bind_raise _ _ _ _ _ _ Hiter). reflexivity.
Qed.

(** Whatever exception leaves an iteration (the model, Docs, Drive, a
    missing column), [main] ends with it at once: the trace of the run is
    that of the projects before, then of the failed iteration, and the rows
    after it have no part in the result, the world or the trace. *)
Theorem failed_iteration_halts_run
    (done rest : list row) (config : row) (w wc wa w2 : W)
    (tc ta ti : list event) (e : exn) :
  get_configs sv w = (Ret (done ++ config :: rest), wc, tc) ->
  for_each done (process_config sv) wc = (Ret tt, wa, ta) ->
  process_config sv config wa = (Raise e, w2, ti) ->
  main sv w
  = (Raise e, w2, tc ++ found_line (done ++ config :: rest) :: ta ++ ti).
Proof.
  intros Hcfg Hdone Hiter. rewrite (main_after_configs _ _ _ _ Hcfg).
  rewrite (loop_stops_at_raise _ rest _ _ _ _ _ _ _ Hdone Hiter).
  reflexivity.
Qed.

(** An active row without the project-name column, or without the channel
    column, ends the run with a [KeyError] before anything is printed or
    requested for it: [get_configs] reads the status with [get], [main]
    indexes the two other columns. *)
Theorem missing_column_halts_run
    (done rest : list row) (config : row) (w wc wa : W)
    (tc ta : list event) :
  get_configs sv w = (Ret (done ++ config :: rest), wc, tc) ->
  for_each done (process_config sv) wc = (Ret tt, wa, ta) ->
  config !! u "プロジェクト名" = None \/ config !! u "SlackチャンネルID" = None ->
  exists e,
    exn_kind_of e = KeyError /\
    main sv w
    = (Raise e, wa, tc ++ found_line (done ++ config :: rest) :: ta).
Proof.
  intros Hcfg Hdone Hmissing.
  assert (Hiter : exists e, exn_kind_of e = KeyError /\
                            process_config sv config wa = (Raise e, wa, [])).
  { unfold process_config, getitem.
    destruct (config !! u "プロジェクト名") as [name|] eqn:Hname.
    - destruct Hmissing as [Hcontra|Hchannel]; [discriminate|].
      rewrite Hchannel, run_ret_bind.
      eexists. split; [|reflexivity]. reflexivity.
    - eexists. split; [|reflexivity]. reflexivity. }
  destruct Hiter as (e & Hkind & Hiter). exists e. split; [exact Hkind|].
  rewrite (main_after_configs _ _ _ _ Hcfg).
  rewrite (loop_stops_at_raise _ rest _ _ _ _ _ _ _ Hdone Hiter).
  rewrite app_nil_r. reflexivity.
Qed.

(** When the sheet cannot be read, the exception leaves [get_configs] and
    [main]; the only events are the first print and the read itself. *)
Theorem config_load_failure_is_fatal (w w1 : W) (e : exn) :
  get_all_records sv w = (Raise e, w1) ->
  main sv w
  = (Raise e, w1,
     [Print (u "Reading config from Google Sheet..."); SheetGetAllRecords]).
Proof.
  intros Hsheet.
  assert (Hcfg : get_configs sv w
                 = (Raise e, w1,
                    [Print (u "Reading config from Google Sheet...");
                     SheetGetAllRecords])).
  { unfold get_configs. rewrite run_print_then.
    unfold bind, call. rewrite Hsheet. reflexivity. }
  unfold main. rewrite (run_bind_raise _ _ _ _ _ _ Hcfg). reflexivity.
Qed.

(** A sheet without an active row (an empty sheet too): the run prints the
    count 0 and ends normally, without a request to Slack, the model, Docs
    or Drive. *)
Theorem no_active_rows_no_work (rows : list row) (w w1 : W) :
  get_all_records sv w = (Ret rows, w1) ->
  Forall (fun r : row => r !! u "Status" <> Some (CStr (u "Active"))) rows ->
  main sv w
  = (Ret tt, w1,
     [Print (u "Reading config from Google Sheet..."); SheetGetAllRecords;
      Print (u "Found 0 active projects.")]).
Proof.
  intros Hsheet Hnone.
  assert (Hfilter : List.filter is_active rows = []).
  { clear Hsheet. induction Hnone as [|r rows Hr _ IH]; [reflexivity|].
    cbn [List.filter]. unfold is_active at 1.
    rewrite bool_decide_eq_false_2 by exact Hr. exact IH. }
  assert (Hcfg : get_configs sv w
                 = (Ret [], w1,
                    [Print (u "Reading config from Google Sheet...");
                     SheetGetAllRecords])).
  { unfold get_configs. rewrite run_print_then.
    unfold bind, call, ret. rewrite Hsheet.
    unfold result_of, world_of, trace_of. cbn [fst snd app].
    rewrite comprehension_filter, Hfilter. reflexivity. }
  rewrite (main_after_configs _ _ _ _ Hcfg). reflexivity.
Qed.

(** A whole successful iteration: the prompt is built from the fetched
    transcript, the text written to the document is what the model
    returned, and the date in the title comes from a second reading of the
    clock, after the model answered. *)
Theorem successful_iteration_trace
    (config : row) (project_name channel_id : cell)
    (w w0 w1 w2 w3 wa wb wd we : W)
    (today yesterday today' yesterday' : datetime)
    (messages : list message) (text summary doc_id : str)
    (parents : list str) :
  config !! u "プロジェクト名" = Some project_name ->
  config !! u "SlackチャンネルID" = Some channel_id ->
  now sv w = (today, w0) ->
  minus_days today 1 = Some yesterday ->
  conversations_history sv channel_id (window_oldest sv yesterday)
    (window_latest sv yesterday) w0 = (Ret messages, w1) ->
  transcript_of messages = Some text ->
  text <> [] ->
  generate_content sv (build_prompt text project_name) w1 = (Ret summary, w2) ->
  now sv w2 = (today', w3) ->
  minus_days today' 1 = Some yesterday' ->
  documents_create sv (doc_title yesterday' project_name) w3 = (Ret doc_id, wa) ->
  documents_batchUpdate sv doc_id summary wa = (Ret tt, wb) ->
  files_get sv doc_id wb = (Ret (Some parents), wd) ->
  files_update sv doc_id (DRIVE_FOLDER_ID sv) (join (u ",") parents) wd
  = (Ret tt, we) ->
  process_config sv config w
  = (Ret tt, we,
     [processing_line project_name;
      ConversationsHistory channel_id (window_oldest sv yesterday)
        (window_latest sv yesterday);
      Print (u "Summarizing with Gemini...");
      GenerateContent (build_prompt text project_name);
      DocumentsCreate (doc_title yesterday' project_name);
      Print (u "Created Doc: " ++ doc_title yesterday' project_name);
      DocumentsBatchUpdate doc_id summary;
      FilesGet doc_id;
      FilesUpdate doc_id (DRIVE_FOLDER_ID sv) (join (u ",") parents);
      Print (u "Moved to folder.")]).
Proof.
  intros Hname Hchannel Hnow Hy Hcall Htext Hne Hgen Hnow' Hy'
    Hcreate Hwrite Hget Hmove.
  assert (Hfetch : get_yesterday_messages sv channel_id w
                   = (Ret (Some text), w1,
                      [ConversationsHistory channel_id
                         (window_oldest sv yesterday)
                         (window_latest sv yesterday)])).
  { rewrite (fetch_run _ _ _ _ _ _ Hnow Hy), Hcall, Htext. reflexivity. }
  assert (Htruthy : truthy (Some text) = true).
  { destruct text; [congruence|reflexivity]. }
  rewrite (process_config_truthy _ _ _ _ Hname Hchannel _ _ _ _ Hfetch Htruthy).
  assert (Hsum : summarize_text sv (Some text) project_name w1
                 = (Ret summary, w2,
                    [GenerateContent (build_prompt text project_name)])).
  { destruct text as [|c cs]; [congruence|].
    unfold summarize_text, call. rewrite Hgen. reflexivity. }
  rewrite Hsum. cbv zeta.
  rewrite (create_google_doc_run _ _ _ _ _ _ _ Hnow' Hy').
  cbv zeta. rewrite Hcreate, Hwrite, Hget, Hmove. reflexivity.
Qed.

End Runs.

(** ** Orchestrator: what reaches the document *)

Section Bodies.

Context {W : Type} (sv : services W).

Lemma quiet_no_publisher (l : list event) (ev : event) :
  is_publisher_op ev = true -> Forall quiet l -> ev ∈ l -> False.
Proof.
  intros Hev Hall Hin. rewrite Forall_forall in Hall.
  specialize (Hall _ Hin). unfold quiet in Hall. congruence.
Qed.

Lemma fetch_quiet (channel_id : cell) (w : W) :
  Forall quiet (trace_of (get_yesterday_messages sv channel_id w)).
Proof.
  destruct (now sv w) as [today w0] eqn:Hnow.
  destruct (minus_days today 1) as [yesterday|] eqn:Hy.
  - rewrite (fetch_run _ _ _ _ _ _ Hnow Hy).
    destruct (conversations_history sv channel_id _ _ w0) as [[ms|e] w1];
      repeat constructor.
  - unfold get_yesterday_messages, bind. rewrite Hnow, Hy. constructor.
Qed.

Lemma create_writes_summary (project_name : cell) (summary doc_id body : str)
    (w : W) :
  DocumentsBatchUpdate doc_id body
    ∈ trace_of (create_google_doc sv project_name summary w) ->
  body = summary.
Proof.
  destruct (now sv w) as [today w0] eqn:Hnow.
  destruct (minus_days today 1) as [yesterday|] eqn:Hy.
  - rewrite (create_google_doc_run _ _ _ _ _ _ _ Hnow Hy). cbv zeta.
    destruct (documents_create sv _ w0) as [[id|e1] wa];
      [destruct (documents_batchUpdate sv id summary wa) as [[[]|e2] wb];
       [destruct (files_get sv id wb) as [[[ps|]|e3] wd];
        [destruct (files_update sv id _ _ wd) as [[[]|e4] we]|..]|]|];
      unfold trace_of; cbn [snd app]; intros Hin;
      repeat (apply elem_of_cons in Hin as [Hin|Hin];
              [try discriminate Hin; try (injection Hin; congruence)|]);
      apply elem_of_nil in Hin; contradiction.
  - unfold create_google_doc, bind. rewrite Hnow, Hy.
    unfold trace_of. cbn [snd]. intros Hin.
    apply elem_of_nil in Hin. contradiction.
Qed.

(** The two shapes of the trace of an iteration: either it holds no
    publisher call, or the model answered and the publisher ran on the
    answer. *)
Lemma process_config_shapes (config : row) (w : W) :
  Forall quiet (trace_of (process_config sv config w)) \/
  exists project_name tf prompt summary w1 w2,
    Forall quiet tf /\
    generate_content sv prompt w1 = (Ret summary, w2) /\
    trace_of (process_config sv config w)
    = processing_line project_name :: tf ++
      Print (u "Summarizing with Gemini...") :: GenerateContent prompt ::
      trace_of (create_google_doc sv project_name summary w2).
Proof.
  unfold process_config, getitem.
  destruct (config !! u "プロジェクト名") as [project_name|];
    [|left; constructor].
  destruct (config !! u "SlackチャンネルID") as [channel_id|];
    [|left; rewrite run_ret_bind; constructor].
  rewrite !run_ret_bind, run_print_then.
  pose proof (fetch_quiet channel_id w) as Hq.
  destruct (get_yesterday_messages sv channel_id w) as [[[t|e] w1] tf]
    eqn:Hfetch; unfold trace_of in Hq; cbn [snd] in Hq.
  - rewrite (run_bind_ret _ _ _ _ _ _ Hfetch).
    destruct t as [[|c cs]|]; cbn [truthy].
    + left. unfold print, trace_of. cbn [snd].
      constructor; [reflexivity|]. apply Forall_app. split; [exact Hq|].
      repeat constructor.
    + rewrite run_print_then.
      destruct (generate_content sv (build_prompt (c :: cs) project_name) w1)
        as [[summary|e] w2] eqn:Hgen.
      * right. exists project_name, tf, (build_prompt (c :: cs) project_name),
          summary, w1, w2.
        split; [exact Hq|]. split; [exact Hgen|].
        unfold summarize_text, bind, call. rewrite Hgen.
        destruct (create_google_doc sv project_name summary w2)
          as [[r w3] tp].
        reflexivity.
      * left. unfold summarize_text, bind, call. rewrite Hgen.
        unfold trace_of. cbn [snd].
        constructor; [reflexivity|]. apply Forall_app. split; [exact Hq|].
        repeat constructor.
    + left. unfold print, trace_of. cbn [snd].
      constructor; [reflexivity|]. apply Forall_app. split; [exact Hq|].
      repeat constructor.
  - left. rewrite (run_bind_raise _ _ _ _ _ _ Hfetch).
    unfold trace_of. cbn [snd]. constructor; [reflexivity|exact Hq].
Qed.

(** Whatever [main] writes into a document is a text the model returned in
    that iteration: the placeholder of [summarize_text] for an absent
    transcript is never written, since [main] calls it for non-empty
    transcripts only. *)
Theorem written_body_is_model_answer
    (config : row) (w : W) (doc_id body : str) :
  DocumentsBatchUpdate doc_id body ∈ trace_of (process_config sv config w) ->
  exists prompt wa wb,
    GenerateContent prompt ∈ trace_of (process_config sv config w) /\
    generate_content sv prompt wa = (Ret body, wb).
Proof.
  intros Hin.
  destruct (process_config_shapes config w)
    as [Hq|(project_name & tf & prompt & summary & w1 & w2 & Hq & Hgen & Htr)].
  - exfalso. exact (quiet_no_publisher _ (DocumentsBatchUpdate doc_id body) eq_refl Hq Hin).
  - rewrite Htr in Hin |- *.
    exists prompt, w1, w2. split.
    + apply elem_of_cons. right. apply elem_of_app. right.
      apply elem_of_cons. right. apply elem_of_cons. left. reflexivity.
    + apply elem_of_cons in Hin as [Hin|Hin]; [discriminate Hin|].
      apply elem_of_app in Hin as [Hin|Hin];
        [exfalso; exact (quiet_no_publisher _ (DocumentsBatchUpdate doc_id body) eq_refl Hq Hin)|].
      apply elem_of_cons in Hin as [Hin|Hin]; [discriminate Hin|].
      apply elem_of_cons in Hin as [Hin|Hin]; [discriminate Hin|].
      apply create_writes_summary in Hin. subst body. exact Hgen.
Qed.

(** Every publisher call of an iteration comes after a call to the model
    that returned: without an answer of the model nothing is created,
    written or moved.  *)
Theorem publisher_needs_model_answer (config : row) (w : W) (ev : event) :
  is_publisher_op ev = true ->
  ev ∈ trace_of (process_config sv config w) ->
  exists before prompt after,
    trace_of (process_config sv config w)
    = before ++ GenerateContent prompt :: after /\
    Forall quiet before /\
    ev ∈ after.
Proof.
  intros Hev Hin.
  destruct (process_config_shapes config w)
    as [Hq|(project_name & tf & prompt & summary & w1 & w2 & Hq & Hgen & Htr)].
  - exfalso. exact (quiet_no_publisher _ _ Hev Hq Hin).
  - rewrite Htr in Hin |- *.
    exists (processing_line project_name :: tf ++
            [Print (u "Summarizing with Gemini...")]),
      prompt, (trace_of (create_google_doc sv project_name summary w2)).
    split; [|split].
    + cbn [app]. rewrite <- app_assoc. reflexivity.
    + constructor; [reflexivity|]. apply Forall_app. split; [exact Hq|].
      repeat constructor.
    + apply elem_of_cons in Hin as [Hin|Hin]; [subst ev; discriminate Hev|].
      apply elem_of_app in Hin as [Hin|Hin];
        [exfalso; exact (quiet_no_publisher _ _ Hev Hq Hin)|].
      apply elem_of_cons in Hin as [Hin|Hin]; [subst ev; discriminate Hev|].
      apply elem_of_cons in Hin as [Hin|Hin]; [subst ev; discriminate Hev|].
      exact Hin.
Qed.

End Bodies.

(** ** Orchestrator: a run in which the model and the publisher answer *)

Section Reliable.

Context {W : Type} (sv : services W).
Hypothesis Hclock : clock_sane sv.
Hypothesis Hreliable : reliable sv.

Lemma tally_app (n1 n2 : nat) (t1 t2 : list event) :
  tally_ok n1 t1 -> tally_ok n2 t2 -> tally_ok (n1 + n2) (t1 ++ t2).
Proof.
  intros [H1 C1 P1] [H2 C2 P2].
  split; rewrite !List.filter_app, !length_app; lia.
Qed.

Lemma iteration_reliable (config : row) (w : W) :
  has_columns config ->
  exists w' ti,
    process_config sv config w = (Ret tt, w', ti) /\ tally_ok 1 ti.
Proof.
  intros [[project_name Hname] [channel_id Hchannel]].
  pose proof (Hclock w) as Hc.
  destruct (now sv w) as [today w0] eqn:Hnow. cbn [fst] in Hc.
  destruct (minus_days today 1) as [yesterday|] eqn:Hy; [|congruence].
  pose proof (fetch_run sv channel_id w w0 today yesterday Hnow Hy) as Hfetch.
  destruct (conversations_history sv channel_id _ _ w0) as [[ms|e] w1].
  - destruct (transcript_of ms) as [[|c cs]|] eqn:Ht.
    + rewrite (process_config_falsy _ _ _ _ Hname Hchannel _ _ _ _ Hfetch)
        by reflexivity.
      do 2 eexists. split; [reflexivity|]. split; reflexivity.
    + rewrite (process_config_truthy _ _ _ _ Hname Hchannel _ _ _ _ Hfetch)
        by reflexivity.
      destruct (model_answers sv Hreliable
                  (build_prompt (c :: cs) project_name) w1)
        as (summary & w2 & Hgen).
      unfold summarize_text, call. rewrite Hgen. cbv zeta.
      pose proof (Hclock w2) as Hc2.
      destruct (now sv w2) as [today' w3] eqn:Hnow'. cbn [fst] in Hc2.
      destruct (minus_days today' 1) as [yesterday'|] eqn:Hy'; [|congruence].
      rewrite (create_google_doc_run _ _ _ _ _ _ _ Hnow' Hy'). cbv zeta.
      destruct (create_answers sv Hreliable
                  (doc_title yesterday' project_name) w3)
        as (doc_id & wa & ->).
      destruct (write_answers sv Hreliable doc_id summary wa) as (wb & ->).
      destruct (get_answers sv Hreliable doc_id wb) as (ps & wd & ->).
      destruct (move_answers sv Hreliable doc_id (DRIVE_FOLDER_ID sv)
                  (join (u ",") ps) wd) as (we & ->).
      do 2 eexists. split; [reflexivity|]. split; reflexivity.
    + rewrite (process_config_falsy _ _ _ _ Hname Hchannel _ _ _ _ Hfetch)
        by reflexivity.
      do 2 eexists. split; [reflexivity|]. split; reflexivity.
  - rewrite (process_config_falsy _ _ _ _ Hname Hchannel _ _ _ _ Hfetch)
      by reflexivity.
    do 2 eexists. split; [reflexivity|]. split; reflexivity.
Qed.

Lemma loop_reliable (configs : list row) (w : W) :
  Forall has_columns configs ->
  exists w' t,
    for_each configs (process_config sv) w = (Ret tt, w', t) /\
    tally_ok (length configs) t.
Proof.
  intros Hall. revert w.
  induction Hall as [|config configs Hcols _ IH]; intros w.
  - exists w, []. split; [reflexivity|]. split; reflexivity.
  - destruct (iteration_reliable config w Hcols) as (w1 & ti & Hiter & Hti).
    destruct (IH w1) as (w2 & t & Hrest & Ht).
    exists w2, (ti ++ t). split.
    + rewrite (for_each_cons _ _ _ _ _ _ Hiter), Hrest. reflexivity.
    + exact (tally_app 1 (length configs) ti t Hti Ht).
Qed.

(** When the sheet is read, every active row has the two columns, the clock
    is sane and the model, Docs and Drive answer, [main] ends normally,
    whatever Slack does.  It asks Slack once per active row, creates one
    document per call to the model, and makes four publisher calls per
    document. *)
Theorem run_completes_when_reliable (rows : list row) (w w1 : W) :
  get_all_records sv w = (Ret rows, w1) ->
  Forall has_columns
    (filter (fun r : row => r !! u "Status" = Some (CStr (u "Active"))) rows) ->
  result_of (main sv w) = Ret tt /\
  length (List.filter is_history (trace_of (main sv w)))
  = length (filter (fun r : row => r !! u "Status" = Some (CStr (u "Active")))
              rows) /\
  length (List.filter is_create (trace_of (main sv w)))
  = length (List.filter is_generate (trace_of (main sv w))) /\
  length (List.filter is_publisher_op (trace_of (main sv w)))
  = 4 * length (List.filter is_create (trace_of (main sv w))).
Proof.
  intros Hsheet Hcols. rewrite <- filter_is_active in *.
  assert (Hcfg : get_configs sv w
                 = (Ret (List.filter is_active rows), w1,
                    [Print (u "Reading config from Google Sheet...");
                     SheetGetAllRecords])).
  { unfold get_configs. rewrite run_print_then.
    unfold bind, call, ret. rewrite Hsheet.
    unfold result_of, world_of, trace_of. cbn [fst snd app].
    rewrite comprehension_filter. reflexivity. }
  rewrite (main_after_configs _ _ _ _ _ Hcfg).
  destruct (loop_reliable (List.filter is_active rows) w1 Hcols)
    as (w2 & t & -> & [Hh Hc Hp]).
  unfold result_of, trace_of. cbn [fst snd app List.filter is_history
    is_create is_generate is_publisher_op found_line].
  repeat split; assumption.
Qed.

End Reliable.

(** ** Fetcher and summarizer: further facts *)

Lemma join_nonempty (sep x : str) (rest : list str) :
  x <> [] -> join sep (x :: rest) <> [].
Proof.
  intros Hx. cbn [join]. destruct rest as [|y rest]; [exact Hx|].
  destruct x; [congruence|discriminate].
Qed.

Lemma transcript_line_nonempty (m : message) : transcript_line m <> [].
Proof.
  unfold transcript_line. intros H. apply (f_equal length) in H.
  rewrite length_app in H.
  change (length (u "User(")) with 5 in H. cbn [length] in H. lia.
Qed.

Lemma kept_records_elem (messages : list message) (m : message) :
  m ∈ kept_records messages <-> m ∈ messages /\ text_of m <> [].
Proof.
  unfold kept_records.
  rewrite !list_elem_of_In, filter_In, <- in_rev. unfold has_text.
  destruct (text_of m); split; intros [? ?]; split;
    congruence || assumption.
Qed.

(** The fetched transcript is truthy, so that [main] goes on to the model
    and the publisher, exactly when some record of the response has a
    non-empty text. *)
Theorem transcript_truthy_iff_some_text (messages : list message) :
  truthy (transcript_of messages) = true <->
  exists m : message, m ∈ messages /\ text_of m <> [].
Proof.
  rewrite transcript_of_spec.
  destruct messages as [|m0 ms].
  - split; [discriminate|]. intros (m & Hin & _).
    apply elem_of_nil in Hin. contradiction.
  - unfold spec_transcript.
    destruct (kept_records (m0 :: ms)) as [|k ks] eqn:Hkept.
    + split; [discriminate|]. intros (m & Hin & Htext). exfalso.
      assert (Hk : m ∈ kept_records (m0 :: ms))
        by (apply kept_records_elem; split; assumption).
      rewrite Hkept in Hk. apply elem_of_nil in Hk. exact Hk.
    + split.
      * intros _. exists k. apply kept_records_elem. rewrite Hkept.
        apply elem_of_cons. left. reflexivity.
      * intros _. cbn [map].
        pose proof (join_nonempty nl (transcript_line k)
                      (map transcript_line ks) (transcript_line_nonempty k))
          as Hne.
        destruct (join nl (transcript_line k :: map transcript_line ks));
          [congruence|reflexivity].
Qed.

(** The fixed text of the prompt has 258 characters, so the prompt has 258
    characters, those of the project name, and at most 20000 of the
    transcript. *)
Theorem prompt_length (text : str) (project_name : cell) :
  Z.of_nat (length (build_prompt text project_name))
  = (258 + Z.of_nat (length (format_cell project_name))
     + Z.min 20000 (Z.of_nat (length text)))%Z.
Proof.
  unfold build_prompt. rewrite slice_prefix by lia.
  rewrite !length_app, length_take.
  change (length PROMPT_HEAD) with 51.
  change (length PROMPT_MIDDLE) with 202.
  change (length PROMPT_TAIL) with 5.
  lia.
Qed.

(** The requested window is 23 h 59 min 59 s long whenever the zone offset
    is the same at its two ends: the last second before midnight is never
    asked for in full. *)
Theorem window_width {W} (sv : services W) (yesterday : datetime) :
  utcoffset sv (replace_hms yesterday 23 59 59)
  = utcoffset sv (replace_hms yesterday 0 0 0) ->
  (window_latest sv yesterday - window_oldest sv yesterday
   = 86399 * 1000000)%Z.
Proof.
  intros Hoff. unfold window_latest, window_oldest, timestamp.
  rewrite Hoff. unfold replace_hms, toordinal.
  cbn [year month day hour minute second microsecond]. lia.
Qed.

(** ** The previous day *)

Lemma days_ok_false (start : Z) (count : nat) :
  days_ok start count false = false.
Proof. revert start. induction count as [|n IH]; intros start; [reflexivity|]. exact (IH _). Qed.

Lemma days_ok_sound (count : nat) (start : Z) :
  days_ok start count true = true ->
  forall o : Z, (start <= o < start + Z.of_nat count)%Z -> day_ok o = true.
Proof.
  revert start. induction count as [|n IH]; intros start Hok o Ho; [lia|].
  cbn [days_ok andb] in Hok.
  destruct (day_ok start) eqn:Hstart;
    [|rewrite days_ok_false in Hok; discriminate].
  destruct (Z.eq_dec o start) as [->|Hne]; [exact Hstart|].
  apply (IH (start + 1)%Z Hok). lia.
Qed.

Lemma checked_days_ok :
  days_ok EPOCH_ORDINAL (Z.to_nat DAYS_CHECKED) true = true.
Proof. vm_compute. reflexivity. Qed.

Lemma checked_range (o : Z) :
  (EPOCH_ORDINAL <= o < EPOCH_ORDINAL + DAYS_CHECKED)%Z -> day_ok o = true.
Proof.
  intros Ho.
  apply (days_ok_sound (Z.to_nat DAYS_CHECKED) EPOCH_ORDINAL checked_days_ok).
  rewrite Z2Nat.id; [exact Ho|discriminate].
Qed.

Lemma checked_bounds :
  (0 < EPOCH_ORDINAL)%Z /\ (EPOCH_ORDINAL + DAYS_CHECKED <= MAXORDINAL)%Z.
Proof. split; [reflexivity|discriminate]. Qed.

Lemma minus_days_some (today : datetime) (y m d : Z) :
  (0 <? toordinal today - 1)%Z && (toordinal today - 1 <=? MAXORDINAL)%Z
  = true ->
  ord2ymd (toordinal today - 1) = (y, m, d) ->
  minus_days today 1
  = Some (mk_datetime y m d (hour today) (minute today) (second today)
            (microsecond today)).
Proof.
  intros Hin Hord. unfold minus_days. cbv zeta. rewrite Hin, Hord. reflexivity.
Qed.

Lemma day_ok_inv (o y m d : Z) :
  ord2ymd o = (y, m, d) -> day_ok o = true ->
  (1 <= m <= 12)%Z /\ (1 <= d <= days_in_month y m)%Z /\ ymd2ord y m d = o.
Proof.
  intros Hord Hday. unfold day_ok in Hday. rewrite Hord in Hday.
  repeat (apply andb_prop in Hday as [Hday ?]).
  repeat match goal with
         | H : (_ <=? _)%Z = true |- _ => apply Z.leb_le in H
         | H : (_ =? _)%Z = true |- _ => apply Z.eqb_eq in H
         end.
  repeat split; assumption.
Qed.

(** For a clock reading dated 1970-01-02 to 2100-01-01, the day used for
    the window and for the title is the calendar day before: a valid date
    whose day number is one less, with the time of day of the reading. *)
Theorem yesterday_is_previous_day (today : datetime) :
  (EPOCH_ORDINAL < toordinal today <= EPOCH_ORDINAL + DAYS_CHECKED)%Z ->
  exists yesterday : datetime,
    minus_days today 1 = Some yesterday /\
    toordinal yesterday = (toordinal today - 1)%Z /\
    (1 <= month yesterday <= 12)%Z /\
    (1 <= day yesterday <= days_in_month (year yesterday) (month yesterday))%Z /\
    hour yesterday = hour today /\
    minute yesterday = minute today /\
    second yesterday = second today /\
    microsecond yesterday = microsecond today.
Proof.
  intros Hrange.
  pose proof checked_bounds as [Hlo Hhi].
  assert (Hin : (0 <? toordinal today - 1)%Z
                && (toordinal today - 1 <=? MAXORDINAL)%Z = true).
  { apply andb_true_intro.
    split; [apply Z.ltb_lt|apply Z.leb_le]; lia. }
  assert (Hday : day_ok (toordinal today - 1) = true)
    by (apply checked_range; lia).
  destruct (ord2ymd (toordinal today - 1)) as [[y m] d] eqn:Hord.
  destruct (day_ok_inv _ _ _ _ Hord Hday) as (Hm & Hd & Hback).
  exists (mk_datetime y m d (hour today) (minute today) (second today)
            (microsecond today)).
  split; [exact (minus_days_some today y m d Hin Hord)|].
  split; [exact Hback|]. split; [exact Hm|]. split; [exact Hd|].
  repeat split.
Qed.

(** ** What truncation cuts *)

Lemma join_app_prefix (sep : str) (l1 l2 : list str) :
  exists suffix, join sep (l1 ++ l2) = join sep l1 ++ suffix.
Proof.
  induction l1 as [|x r IH].
  - exists (join sep l2). reflexivity.
  - destruct IH as [suffix IH]. cbn [app join].
    destruct r as [|y r'].
    + cbn [app] in *. destruct l2 as [|z l2'].
      * exists []. symmetry. apply app_nil_r.
      * exists (sep ++ join sep (z :: l2')). reflexivity.
    + cbn [app] in *. rewrite IH.
      exists suffix. rewrite <- !app_assoc. reflexivity.
Qed.

Lemma kept_records_app (newer older : list message) :
  kept_records (newer ++ older) = kept_records older ++ kept_records newer.
Proof.
  unfold kept_records. rewrite rev_app_distr. apply List.filter_app.
Qed.

(** Slack lists the newest records first and the transcript the oldest
    first, so the cut at 20000 characters falls on the newest: once the
    transcript of the older records has 20000 characters, the records after
    them do not change the prompt. *)
Theorem truncation_drops_newest
    (newer older : list message) (t_old : str) (project_name : cell) :
  transcript_of older = Some t_old ->
  (20000 <= Z.of_nat (length t_old))%Z ->
  exists t_all,
    transcript_of (newer ++ older) = Some t_all /\
    build_prompt t_all project_name = build_prompt t_old project_name.
Proof.
  intros Hold Hlen. rewrite transcript_of_spec in Hold.
  destruct older as [|m0 ms]; [discriminate|].
  unfold spec_transcript in Hold. injection Hold as Hold.
  destruct (join_app_prefix nl
              (map transcript_line (kept_records (m0 :: ms)))
              (map transcript_line (kept_records newer))) as [suffix Hjoin].
  exists (t_old ++ suffix). split.
  - rewrite transcript_of_spec.
    destruct (newer ++ m0 :: ms) as [|x xs] eqn:Hall.
    + destruct newer; discriminate.
    + unfold spec_transcript. rewrite <- Hall, kept_records_app, map_app.
      rewrite Hjoin, Hold. reflexivity.
  - unfold build_prompt. rewrite !slice_prefix by lia.
    rewrite take_app_le by lia. reflexivity.
Qed.

(** ** The further properties on the example worlds *)

Lemma publish_calls_in_order_witness :
  List.filter is_publisher_op
    (trace_of (create_google_doc demo_ok (CStr (u "Alpha")) (u "summary") 0))
  = [DocumentsCreate (u "2024-05-01_Alpha_日報");
     DocumentsBatchUpdate (u "doc0") (u "summary");
     FilesGet (u "doc0");
     FilesUpdate (u "doc0") (u "folder") (u "root")].
Proof.
  exact (proj2 (proj2 (publish_calls_in_order demo_ok (CStr (u "Alpha"))
                         (u "summary") (u "doc0") [u "root"] 0 0 1 2 3 4
                         demo_clock demo_yesterday
                         eq_refl eq_refl eq_refl eq_refl eq_refl eq_refl))).
Defined.

Lemma publish_calls_prefix_witness :
  exists doc_id removed : str,
    List.filter is_publisher_op
      (trace_of (create_google_doc demo_move_fails (CStr (u "Alpha"))
                   (u "summary") 0))
    `prefix_of`
    [DocumentsCreate (doc_title demo_yesterday (CStr (u "Alpha")));
     DocumentsBatchUpdate doc_id (u "summary");
     FilesGet doc_id;
     FilesUpdate doc_id (DRIVE_FOLDER_ID demo_move_fails) removed].
Proof.
  exact (publish_calls_prefix demo_move_fails (CStr (u "Alpha")) (u "summary")
           0 0 demo_clock demo_yesterday eq_refl eq_refl).
Defined.

Lemma missing_parents_type_error_witness :
  files_get demo_no_parents (u "doc0") 2 = (Ret None, 3) /\
  List.filter is_publisher_op
    (trace_of (create_google_doc demo_no_parents (CStr (u "Alpha"))
                 (u "summary") 0))
  = [DocumentsCreate (u "2024-05-01_Alpha_日報");
     DocumentsBatchUpdate (u "doc0") (u "summary");
     FilesGet (u "doc0")].
Proof.
  split; [reflexivity|].
  exact (proj2 (proj2 (missing_parents_type_error demo_no_parents
                         (CStr (u "Alpha")) (u "summary") (u "doc0")
                         0 0 1 2 3 demo_clock demo_yesterday
                         eq_refl eq_refl eq_refl eq_refl eq_refl))).
Defined.

Lemma move_failure_leaves_document_witness :
  create_google_doc demo_move_fails (CStr (u "Alpha")) (u "summary") 0
  = (Raise forbidden, 4,
     [DocumentsCreate (u "2024-05-01_Alpha_日報");
      Print (u "Created Doc: 2024-05-01_Alpha_日報");
      DocumentsBatchUpdate (u "doc0") (u "summary");
      FilesGet (u "doc0");
      FilesUpdate (u "doc0") (u "folder") (u "a,b")]).
Proof.
  exact (move_failure_leaves_document demo_move_fails (CStr (u "Alpha"))
           (u "summary") (u "doc0") [u "a"; u "b"] 0 0 1 2 3 4
           demo_clock demo_yesterday forbidden
           eq_refl eq_refl eq_refl eq_refl eq_refl eq_refl).
Defined.

Lemma failed_iteration_halts_run_witness :
  result_of (main demo_move_fails 0) = Raise forbidden /\
  List.filter is_create (trace_of (main demo_move_fails 0))
  = [DocumentsCreate (u "2024-05-01_Alpha_日報")] /\
  length (List.filter is_history (trace_of (main demo_move_fails 0))) = 2.
Proof.
  pose proof (failed_iteration_halts_run demo_move_fails
                [demo_row "Beta" "C2" "Active"]
                [demo_row "Delta" "C4" "Active"] alpha 0 1 2 8
                (trace_of (get_configs demo_move_fails 0))
                (trace_of (for_each [demo_row "Beta" "C2" "Active"]
                             (process_config demo_move_fails) 1))
                (trace_of (process_config demo_move_fails alpha 2))
                forbidden eq_refl eq_refl eq_refl) as H.
  rewrite H. repeat split; vm_compute; reflexivity.
Defined.

Lemma missing_column_halts_run_witness :
  demo_row_no_channel !! u "SlackチャンネルID" = None /\
  exists e,
    exn_kind_of e = KeyError /\
    main demo_broken 0
    = (Raise e, 2,
       trace_of (get_configs demo_broken 0)
       ++ found_line demo_broken_rows
          :: trace_of (for_each [demo_row "Beta" "C2" "Active"]
                         (process_config demo_broken) 1)).
Proof.
  split; [reflexivity|].
  exact (missing_column_halts_run demo_broken
           [demo_row "Beta" "C2" "Active"] [alpha] demo_row_no_channel
           0 1 2
           (trace_of (get_configs demo_broken 0))
           (trace_of (for_each [demo_row "Beta" "C2" "Active"]
                        (process_config demo_broken) 1))
           eq_refl eq_refl (or_intror eq_refl)).
Defined.

Lemma config_load_failure_is_fatal_witness :
  main demo_sheet_down 0
  = (Raise (mk_exn ServiceError (u "sheet not found")), 1,
     [Print (u "Reading config from Google Sheet..."); SheetGetAllRecords]).
Proof.
  exact (config_load_failure_is_fatal demo_sheet_down 0 1
           (mk_exn ServiceError (u "sheet not found")) eq_refl).
Defined.

Lemma paused_row_not_active :
  Forall (fun r : row => r !! u "Status" <> Some (CStr (u "Active")))
    [demo_row "Gamma" "C1" "Paused"].
Proof.
  repeat constructor. intros H. vm_compute in H. discriminate H.
Qed.

Lemma no_active_rows_no_work_witness :
  main demo_paused 0
  = (Ret tt, 1,
     [Print (u "Reading config from Google Sheet..."); SheetGetAllRecords;
      Print (u "Found 0 active projects.")]).
Proof.
  exact (no_active_rows_no_work demo_paused [demo_row "Gamma" "C1" "Paused"]
           0 1 eq_refl paused_row_not_active).
Defined.

Lemma successful_iteration_trace_witness :
  result_of (process_config demo_ok alpha 0) = Ret tt /\
  List.filter is_publisher_op (trace_of (process_config demo_ok alpha 0))
  = [DocumentsCreate (u "2024-05-01_Alpha_日報");
     DocumentsBatchUpdate (u "doc2") (u "summary");
     FilesGet (u "doc2");
     FilesUpdate (u "doc2") (u "folder") (u "root")].
Proof.
  pose proof (successful_iteration_trace demo_ok alpha (CStr (u "Alpha"))
                (CStr (u "C1")) 0 0 1 2 2 3 4 5 6
                demo_clock demo_yesterday demo_clock demo_yesterday
                [demo_message "U2" "second"; demo_message "U9" "";
                 demo_message "U1" "first"]
                alpha_transcript (u "summary") (u "doc2") [u "root"]
                eq_refl eq_refl eq_refl eq_refl eq_refl eq_refl
                alpha_transcript_nonempty
                eq_refl eq_refl eq_refl eq_refl eq_refl eq_refl eq_refl) as H.
  rewrite H. split; vm_compute; reflexivity.
Defined.

Lemma alpha_body_written :
  DocumentsBatchUpdate (u "doc2") (u "summary")
    ∈ trace_of (process_config demo_ok alpha 0).
Proof.
  apply list_elem_of_In. vm_compute. do 6 right. left. reflexivity.
Qed.

Lemma written_body_is_model_answer_witness :
  exists prompt wa wb,
    GenerateContent prompt ∈ trace_of (process_config demo_ok alpha 0) /\
    generate_content demo_ok prompt wa = (Ret (u "summary"), wb).
Proof.
  exact (written_body_is_model_answer demo_ok alpha 0 (u "doc2") (u "summary")
           alpha_body_written).
Defined.

Lemma publisher_needs_model_answer_witness :
  exists before prompt after,
    trace_of (process_config demo_ok alpha 0)
    = before ++ GenerateContent prompt :: after /\
    Forall quiet before /\
    DocumentsBatchUpdate (u "doc2") (u "summary") ∈ after.
Proof.
  exact (publisher_needs_model_answer demo_ok alpha 0
           (DocumentsBatchUpdate (u "doc2") (u "summary")) eq_refl
           alpha_body_written).
Defined.

Lemma demo_ok_clock_sane : clock_sane demo_ok.
Proof. apply demo_clock_sane. discriminate. Qed.

Lemma demo_ok_reliable : reliable demo_ok.
Proof. constructor; intros; repeat eexists. Qed.

Lemma demo_rows_have_columns :
  Forall has_columns
    (filter (fun r : row => r !! u "Status" = Some (CStr (u "Active")))
       demo_rows).
Proof.
  rewrite <- filter_is_active.
  change (List.filter is_active demo_rows)
    with [demo_row "Alpha" "C1" "Active"; demo_row "Beta" "C2" "Active";
          demo_row "Delta" "C4" "Active"; demo_row "Epsilon" "C3" "Active"].
  repeat constructor; eexists; vm_compute; reflexivity.
Qed.

Lemma run_completes_when_reliable_witness :
  result_of (main demo_ok 0) = Ret tt /\
  length (List.filter is_history (trace_of (main demo_ok 0)))
  = length (filter (fun r : row => r !! u "Status" = Some (CStr (u "Active")))
              demo_rows) /\
  length (List.filter is_create (trace_of (main demo_ok 0)))
  = length (List.filter is_generate (trace_of (main demo_ok 0))) /\
  length (List.filter is_publisher_op (trace_of (main demo_ok 0)))
  = 4 * length (List.filter is_create (trace_of (main demo_ok 0))).
Proof.
  exact (run_completes_when_reliable demo_ok demo_ok_clock_sane
           demo_ok_reliable demo_rows 0 1 eq_refl demo_rows_have_columns).
Defined.

Lemma window_width_witness :
  (window_latest demo_ok demo_yesterday - window_oldest demo_ok demo_yesterday
   = 86399 * 1000000)%Z.
Proof. exact (window_width demo_ok demo_yesterday eq_refl). Defined.

Example checked_days_end :
  ymd2ord 2100 1 1 = (EPOCH_ORDINAL + DAYS_CHECKED)%Z.
Proof. reflexivity. Qed.

Lemma demo_clock_in_range :
  (EPOCH_ORDINAL < toordinal demo_clock <= EPOCH_ORDINAL + DAYS_CHECKED)%Z.
Proof. split; [reflexivity|discriminate]. Qed.

Lemma yesterday_is_previous_day_witness :
  exists yesterday : datetime,
    minus_days demo_clock 1 = Some yesterday /\
    toordinal yesterday = (toordinal demo_clock - 1)%Z /\
    (1 <= month yesterday <= 12)%Z /\
    (1 <= day yesterday <= days_in_month (year yesterday) (month yesterday))%Z /\
    hour yesterday = hour demo_clock /\
    minute yesterday = minute demo_clock /\
    second yesterday = second demo_clock /\
    microsecond yesterday = microsecond demo_clock.
Proof. exact (yesterday_is_previous_day demo_clock demo_clock_in_range). Defined.

Lemma single_record_transcript (user text : str) :
  text <> [] ->
  transcript_of [<[u "user" := user]> (<[u "text" := text]> ∅)]
  = Some (u "User(" ++ user ++ u "): " ++ text).
Proof.
  intros Hne. rewrite transcript_of_spec.
  unfold spec_transcript, kept_records. cbn [rev app List.filter].
  assert (Htext : text_of (<[u "user" := user]> (<[u "text" := text]> ∅))
                  = text).
  { unfold text_of. rewrite lookup_insert_ne by discriminate.
    rewrite lookup_insert_eq. reflexivity. }
  assert (Huser : user_of (<[u "user" := user]> (<[u "text" := text]> ∅))
                  = user).
  { unfold user_of. rewrite lookup_insert_eq. reflexivity. }
  unfold has_text. rewrite Htext. destruct text as [|c cs]; [congruence|].
  cbn [map join]. unfold transcript_line. rewrite Htext, Huser. reflexivity.
Qed.

Lemma demo_long_older_transcript :
  transcript_of demo_long_older = Some demo_long_transcript.
Proof.
  apply single_record_transcript. intros H. apply (f_equal length) in H.
  rewrite repeat_length in H. discriminate H.
Qed.

Lemma demo_long_transcript_length :
  (20000 <= Z.of_nat (length demo_long_transcript))%Z.
Proof.
  unfold demo_long_transcript. rewrite !length_app, repeat_length. lia.
Qed.

Lemma truncation_drops_newest_witness :
  exists t_all,
    transcript_of (demo_long_newer ++ demo_long_older) = Some t_all /\
    build_prompt t_all (CStr (u "Alpha"))
    = build_prompt demo_long_transcript (CStr (u "Alpha")).
Proof.
  exact (truncation_drops_newest demo_long_newer demo_long_older
           demo_long_transcript (CStr (u "Alpha"))
           demo_long_older_transcript demo_long_transcript_length).
Defined.
